(** * khoj: the code-running tool ([src/khoj/processor/tools/run_code.py])

    A shallow embedding of [run_code], [generate_python_code] and
    [execute_sandboxed_python], and the properties of the three-stage
    pipeline (code synthesis, input resolution, sandboxed execution).

    Python values are an inductive type, [str] is a sequence of Unicode
    code points, [dict] is a finite map with string keys (equality of maps
    is Python's [==] on dicts: same keys, same values, order ignored).
    Exceptions are values of [exn]; a computation that may raise returns a
    [result].  The collaborators the module imports from the rest of the
    code base (prompt templates, the model call, the JSON clean-up helpers)
    are variables of the section that holds the pipeline. *)

From stdpp Require Import gmap list.
From Stdlib Require Import ZArith String Ascii DecimalString.

#[local] Open Scope N_scope.

(** ** Strings *)

(** A Python [str]: its code points, each below [0x110000]. *)
Definition pystr := list N.

(** The [str] of an ASCII literal of the source. *)
Definition py (s : string) : pystr :=
  (λ a, N_of_ascii a) <$> list_ascii_of_string s.

(** [str.isspace] on one character, the test [str.strip()] uses:
    the code points whose Unicode category is Zs or whose bidirectional
    class is WS, B or S. *)
Definition py_isspace (c : N) : bool :=
  ((0x09 <=? c) && (c <=? 0x0D)) || ((0x1C <=? c) && (c <=? 0x20))
  || (c =? 0x85) || (c =? 0xA0) || (c =? 0x1680)
  || ((0x2000 <=? c) && (c <=? 0x200A))
  || (c =? 0x2028) || (c =? 0x2029) || (c =? 0x202F) || (c =? 0x205F)
  || (c =? 0x3000).

(** [str.lstrip()] *)
Fixpoint lstrip (s : pystr) : pystr :=
  match s with
  | c :: s' => if py_isspace c then lstrip s' else s
  | [] => []
  end.

(** [str.rstrip()] *)
Definition rstrip (s : pystr) : pystr := reverse (lstrip (reverse s)).

(** [str.strip()] *)
Definition strip (s : pystr) : pystr := rstrip (lstrip s).

(** [str.rfind(c)], [-1] when [c] does not occur; [i] is the index of the
    head of [s]. *)
Fixpoint rfind_from (c : N) (s : pystr) (i : Z) (found : Z) : Z :=
  match s with
  | [] => found
  | x :: s' => rfind_from c s' (i + 1)%Z (if x =? c then i else found)
  end.

Definition rfind (c : N) (s : pystr) : Z := rfind_from c s 0%Z (-1)%Z.

(** [os.path.basename] (posixpath): [i = p.rfind('/') + 1; return p[i:]]. *)
Definition basename (p : pystr) : pystr :=
  drop (Z.to_nat (rfind 0x2F p + 1)) p.

(** [str(n)] for an [int]. *)
Definition str_int (z : Z) : pystr := py (NilZero.string_of_int (Z.to_int z)).

(** Lower-case hexadecimal digits of [n], least significant first,
    exactly [width] of them (the C format [%0<width>x] for a value that
    fits). *)
Fixpoint hex_digits_rev (width : nat) (n : N) : pystr :=
  match width with
  | O => []
  | S w =>
      let d := n mod 16 in
      (if d <? 10 then 0x30 + d else 0x61 + (d - 10)) :: hex_digits_rev w (n / 16)
  end.

Definition hex (width : nat) (n : N) : pystr := reverse (hex_digits_rev width n).

(** ** Values *)

(** The values [json.loads] produces, which are all the values this module
    handles.  A [float] is kept as its binary64 bit pattern; nothing here
    looks inside one. *)
#[warnings="-register-all"]
Inductive pyval : Type :=
  | PyNone
  | PyBool (b : bool)
  | PyInt (z : Z)
  | PyFloat (bits : Z)
  | PyStr (s : pystr)
  | PyList (l : list pyval)
  | PyDict (d : gmap pystr pyval).

(** [type(v).__name__] *)
Definition type_name (v : pyval) : pystr :=
  match v with
  | PyNone => py "NoneType"
  | PyBool _ => py "bool"
  | PyInt _ => py "int"
  | PyFloat _ => py "float"
  | PyStr _ => py "str"
  | PyList _ => py "list"
  | PyDict _ => py "dict"
  end.

(** [isinstance(v, str)] *)
Definition isinstance_str (v : pyval) : bool :=
  match v with PyStr _ => true | _ => false end.

(** ** Exceptions *)

(** The exceptions this module can see.  All are subclasses of
    [Exception], so an [except Exception] clause catches each of them.
    [OtherError] is an exception raised inside a collaborator (the model
    call, the JSON decoder, the HTTP client), given by its class name and
    its [str()]. *)
Inductive exn : Type :=
  | ValueError (msg : pystr)
  | AttributeError (msg : pystr)
  | TypeError (msg : pystr)
  | UnicodeEncodeError (encoding object : pystr) (start stop : nat) (reason : pystr)
  | OtherError (cls : string) (msg : pystr).

(** [str(e)], what the f-string [{e}] renders. *)
Definition str_exn (e : exn) : pystr :=
  match e with
  | ValueError msg | AttributeError msg | TypeError msg | OtherError _ msg => msg
  | UnicodeEncodeError enc obj start stop reason =>
      match obj !! start with
      | Some bad =>
          if (stop =? S start)%nat then
            py "'" ++ enc ++ py "' codec can't encode character '"
            ++ (if bad <=? 0xFF then py "\x" ++ hex 2 bad
                else if bad <=? 0xFFFF then py "\u" ++ hex 4 bad
                else py "\U" ++ hex 8 bad)
            ++ py "' in position " ++ str_int (Z.of_nat start) ++ py ": " ++ reason
          else
            py "'" ++ enc ++ py "' codec can't encode characters in position "
            ++ str_int (Z.of_nat start) ++ py "-" ++ str_int (Z.of_nat stop - 1)
            ++ py ": " ++ reason
      | None =>
          py "'" ++ enc ++ py "' codec can't encode characters in position "
          ++ str_int (Z.of_nat start) ++ py "-" ++ str_int (Z.of_nat stop - 1)
          ++ py ": " ++ reason
      end
  end.

(** The outcome of a call that may raise. *)
Inductive result (A : Type) : Type :=
  | Ok (a : A)
  | Raise (e : exn).
Arguments Ok {A} a.
Arguments Raise {A} e.

Definition is_ok {A} (r : result A) : bool :=
  match r with Ok _ => true | Raise _ => false end.

#[global] Instance result_ret : MRet result := λ A a, Ok a.

#[global] Instance result_bind : MBind result := λ A B f r,
  match r with
  | Ok a => f a
  | Raise e => Raise e
  end.

(** ** Codecs *)

Definition is_surrogate (c : N) : bool := (0xD800 <=? c) && (c <=? 0xDFFF).

(** The UTF-8 bytes of one code point that is not a surrogate. *)
Definition utf8_char (c : N) : list N :=
  if c <? 0x80 then [c]
  else if c <? 0x800 then
    [N.lor 0xC0 (N.shiftr c 6); N.lor 0x80 (N.land c 0x3F)]
  else if c <? 0x10000 then
    [N.lor 0xE0 (N.shiftr c 12); N.lor 0x80 (N.land (N.shiftr c 6) 0x3F);
     N.lor 0x80 (N.land c 0x3F)]
  else
    [N.lor 0xF0 (N.shiftr c 18); N.lor 0x80 (N.land (N.shiftr c 12) 0x3F);
     N.lor 0x80 (N.land (N.shiftr c 6) 0x3F); N.lor 0x80 (N.land c 0x3F)].

(** Length of the run of surrogates at the head of [s]. *)
Fixpoint surrogate_run (s : pystr) : nat :=
  match s with
  | c :: s' => if is_surrogate c then S (surrogate_run s') else O
  | [] => O
  end.

(** [whole.encode("utf-8")], from position [i] on ([s] is [whole[i:]]): a
    lone surrogate cannot be encoded and raises [UnicodeEncodeError] with
    the span of the surrogates found. *)
Fixpoint encode_utf8_from (whole : pystr) (i : nat) (s : pystr) : result (list N) :=
  match s with
  | [] => Ok []
  | c :: s' =>
      if is_surrogate c then
        Raise (UnicodeEncodeError (py "utf-8") whole i (i + surrogate_run s)%nat
                 (py "surrogates not allowed"))
      else
        bs ← encode_utf8_from whole (S i) s'; Ok (utf8_char c ++ bs)
  end.

(** [s.encode("utf-8")] *)
Definition encode_utf8 (s : pystr) : result (list N) := encode_utf8_from s O s.

(** The character of the base64 alphabet for a 6-bit value. *)
Definition b64_char (i : N) : N :=
  if i <? 26 then 0x41 + i
  else if i <? 52 then 0x61 + (i - 26)
  else if i <? 62 then 0x30 + (i - 52)
  else if i =? 62 then 0x2B
  else 0x2F.

(** [base64.b64encode(bs).decode("utf-8")]: three bytes give four
    characters, a last group of one or two bytes is padded with [=].  The
    output is ASCII, so decoding it maps each byte to the code point of
    the same value. *)
Fixpoint b64encode (bs : list N) : pystr :=
  match bs with
  | [] => []
  | [a] =>
      [b64_char (N.shiftr a 2); b64_char (N.land (N.shiftl a 4) 0x3F); 0x3D; 0x3D]
  | [a; b] =>
      [b64_char (N.shiftr a 2);
       b64_char (N.land (N.lor (N.shiftl a 4) (N.shiftr b 4)) 0x3F);
       b64_char (N.land (N.shiftl b 2) 0x3F); 0x3D]
  | a :: b :: c :: rest =>
      b64_char (N.shiftr a 2)
      :: b64_char (N.land (N.lor (N.shiftl a 4) (N.shiftr b 4)) 0x3F)
      :: b64_char (N.land (N.lor (N.shiftl b 2) (N.shiftr c 6)) 0x3F)
      :: b64_char (N.land c 0x3F)
      :: b64encode rest
  end.

(** ** Operations on values *)

(** [v.get(key, default)]: only a [dict] has the method. *)
Definition py_get (v : pyval) (key : pystr) (default : pyval) : result pyval :=
  match v with
  | PyDict d => Ok (from_option id default (d !! key))
  | _ => Raise (AttributeError (py "'" ++ type_name v ++ py "' object has no attribute 'get'"))
  end.

(** [v.strip()]: only a [str] has the method. *)
Definition py_strip (v : pyval) : result pyval :=
  match v with
  | PyStr s => Ok (PyStr (strip s))
  | _ => Raise (AttributeError (py "'" ++ type_name v ++ py "' object has no attribute 'strip'"))
  end.

(** [v[key] = x] for a [str] key: a [dict] is updated, a [list] refuses
    the index, the other values refuse the assignment. *)
Definition py_setitem (v : pyval) (key : pystr) (x : pyval) : result (gmap pystr pyval) :=
  match v with
  | PyDict d => Ok (<[key := x]> d)
  | PyList _ => Raise (TypeError (py "list indices must be integers or slices, not str"))
  | _ => Raise (TypeError (py "'" ++ type_name v ++ py "' object does not support item assignment"))
  end.

(** [repr(s)] of a [str] without quotes or escapes to render, as in
    [KeyError('code')]. *)
Definition repr_plain (s : pystr) : pystr := py "'" ++ s ++ py "'".

(** [d.pop(key)]: the value and the dict without the key; [KeyError] when
    the key is absent. *)
Definition dict_pop (d : gmap pystr pyval) (key : pystr) : result (pyval * gmap pystr pyval) :=
  match d !! key with
  | Some v => Ok (v, delete key d)
  | None => Raise (OtherError "KeyError" (repr_plain key))
  end.

(** [iter(v)], what a [for] loop walks over.  A [str] gives its
    characters and a [dict] its keys; the keys come in the order of the
    map, which does not record Python's insertion order. *)
Definition py_iter (v : pyval) : result (list pyval) :=
  match v with
  | PyList l => Ok l
  | PyStr s => Ok ((λ c, PyStr [c]) <$> s)
  | PyDict d => Ok ((λ kv, PyStr kv.1) <$> map_to_list d)
  | _ => Raise (TypeError (py "'" ++ type_name v ++ py "' object is not iterable"))
  end.

(** Modelled from the spec: [khoj.utils.helpers.is_none_or_empty] is not
    under src/.  The spec has synthesis fail when [code] is "empty after
    trimming"; [None] and the empty containers are empty as well. *)
Definition is_none_or_empty (v : pyval) : bool :=
  match v with
  | PyNone => true
  | PyStr s => bool_decide (s = [])
  | PyList l => bool_decide (l = [])
  | PyDict d => bool_decide (d = ∅)
  | _ => false
  end.

(** ** The world around one invocation *)

(** [KhojUser], as far as this module looks at it. *)
Record KhojUser : Type := { user_id : N; get_full_name : pystr }.

(** [Agent]: [personality] may be [None]. *)
Record Agent : Type := { personality : option pystr }.

(** [FileObject]: a stored file of a user. *)
Record FileObject : Type := { file_owner : N; file_name : pystr; raw_text : pystr }.

(** The arguments of [send_message_to_model_wrapper]. *)
Record ModelRequest : Type := {
  mr_message : pystr;
  mr_query_images : option (list pystr);
  mr_response_type : pystr;
  mr_user : KhojUser;
  mr_tracer : pyval }.

(** The arguments of [session.post]. *)
Record HttpRequest : Type := {
  rq_url : pystr;
  rq_json : pyval;
  rq_headers : gmap pystr pystr }.

(** What [session.post] hands back: [response.status], and the outcome of
    [await response.json()], which raises when the body is not JSON. *)
Record HttpResponse : Type := { status : Z; json : result pyval }.

(** Everything outside the module that one invocation reads or touches.
    [model] and [sandbox] are the behaviour of the language model and of
    the sandbox endpoint ([Raise] is an exception out of the call, such as
    a connection error); the four lists record, oldest first, what the
    invocation did. *)
Record World : Type := {
  file_store : list FileObject;
  utc_today : pystr;
  model : ModelRequest → result pystr;
  sandbox : HttpRequest → result HttpResponse;
  model_calls : list ModelRequest;
  db_lookups : list (KhojUser * pyval);
  http_posts : list HttpRequest;
  status_events : list pyval }.

Definition log_model_call (r : ModelRequest) (w : World) : World :=
  {| file_store := file_store w; utc_today := utc_today w; model := model w;
     sandbox := sandbox w; model_calls := model_calls w ++ [r];
     db_lookups := db_lookups w; http_posts := http_posts w;
     status_events := status_events w |}.

Definition log_db_lookup (q : KhojUser * pyval) (w : World) : World :=
  {| file_store := file_store w; utc_today := utc_today w; model := model w;
     sandbox := sandbox w; model_calls := model_calls w;
     db_lookups := db_lookups w ++ [q]; http_posts := http_posts w;
     status_events := status_events w |}.

Definition log_http_post (r : HttpRequest) (w : World) : World :=
  {| file_store := file_store w; utc_today := utc_today w; model := model w;
     sandbox := sandbox w; model_calls := model_calls w;
     db_lookups := db_lookups w; http_posts := http_posts w ++ [r];
     status_events := status_events w |}.

Definition log_status_events (es : list pyval) (w : World) : World :=
  {| file_store := file_store w; utc_today := utc_today w; model := model w;
     sandbox := sandbox w; model_calls := model_calls w;
     db_lookups := db_lookups w; http_posts := http_posts w;
     status_events := status_events w ++ es |}.

(** ** Computations: state and exceptions *)

Definition M (A : Type) : Type := World → result A * World.

#[global] Instance M_ret : MRet M := λ A a w, (Ok a, w).

#[global] Instance M_bind : MBind M := λ A B f m w,
  match m w with
  | (Ok a, w') => f a w'
  | (Raise e, w') => (Raise e, w')
  end.

(** [raise e] *)
Definition raise {A} (e : exn) : M A := λ w, (Raise e, w).

(** A call that does not touch the world. *)
Definition lift {A} (r : result A) : M A := λ w, (r, w).

(** Read the world. *)
Definition ask {A} (f : World → A) : M A := λ w, (Ok (f w), w).

(** Change the world. *)
Definition tell (f : World → World) : M unit := λ w, (Ok tt, f w).

(** [try: body  except Exception as e: handler e] *)
Definition try_except {A} (body : M A) (handler : exn → M A) : M A := λ w,
  match body w with
  | (Ok a, w') => (Ok a, w')
  | (Raise e, w') => handler e w'
  end.

(** A [for] loop that extends an accumulator. *)
Fixpoint for_each {A B} (f : A → M (list B)) (l : list A) (acc : list B) : M (list B) :=
  match l with
  | [] => mret acc
  | x :: l' => ys ← f x; for_each f l' (acc ++ ys)
  end.

(** A [for] loop over calls that may raise, collecting their values. *)
Fixpoint map_result {A B} (f : A → result B) (l : list A) : result (list B) :=
  match l with
  | [] => Ok []
  | x :: l' => y ← f x; ys ← map_result f l'; Ok (y :: ys)
  end.

(** ** Collaborators *)

(** The fields [prompts.python_code_generation_prompt.format] fills in. *)
Record PromptFields : Type := {
  pf_current_date : pystr;
  pf_query : pystr;
  pf_chat_history : pystr;
  pf_context : pystr;
  pf_location : pystr;
  pf_username : pystr;
  pf_personality_context : pystr }.

(** The functions [run_code.py] imports that are not under src/, and
    [json.loads].  The pipeline is stated over any implementation of them. *)
Class Collaborators : Type := {
  (** [prompts.user_name.format(name=...)] *)
  user_name_prompt : pystr → pystr;
  (** [prompts.personality_context.format(personality=...)] *)
  personality_context_prompt : pystr → pystr;
  (** [prompts.python_code_generation_prompt.format(...)] *)
  python_code_generation_prompt : PromptFields → pystr;
  construct_chat_history : pyval → pystr;
  clean_json : pystr → pystr;
  clean_code_python : pystr → pystr;
  json_loads : pystr → result pyval }.

(** Modelled from the spec: [FileObjectAdapters.async_get_file_objects_by_name]
    is not under src/.  The spec's file-store interface is "lookup by
    (user, filename) → zero or more stored entries": all stored entries
    owned by the user whose name matches, in the order of the store.  A
    name that is not a string matches no entry. *)
Definition stored_entries (user : KhojUser) (file_name' : pyval)
    (store : list FileObject) : list FileObject :=
  match file_name' with
  | PyStr name => filter (λ f, file_owner f = user_id user ∧ file_name f = name) store
  | _ => []
  end.

(** The lookup reads the store, and is recorded. *)
Definition async_get_file_objects_by_name (user : KhojUser) (file_name' : pyval)
    : M (list FileObject) :=
  tell (log_db_lookup (user, file_name'));;
  store ← ask file_store;
  mret (stored_entries user file_name' store).

(** ** The pipeline *)

Section Pipeline.
Context {C : Collaborators}.

(** [khoj.routers.helpers.send_message_to_model_wrapper]: the call to
    the language model, answered by the world. *)
Definition send_message_to_model_wrapper (r : ModelRequest) : M pystr :=
  tell (log_model_call r);;
  reply ← ask (λ w, model w r);
  lift reply.

(** The request [generate_python_code] sends to the model (lines 97-122):
    the prompt filled in, the images and the trace metadata passed on.
    [location_data] is [None] or the text [f"{location_data}"] renders. *)
Definition code_generation_request (utc_date q : pystr) (conversation_history : pyval)
    (context : pystr) (location_data : option pystr) (user : KhojUser)
    (query_images : option (list pystr)) (agent : option Agent) (tracer : pyval)
    : ModelRequest :=
  let location := from_option id (py "Unknown") location_data in
  let username :=
    if bool_decide (get_full_name user = []) then []
    else user_name_prompt (get_full_name user) in
  let chat_history := construct_chat_history conversation_history in
  let personality_context :=
    match agent with
    | Some a =>
        match personality a with
        | Some p => if bool_decide (p = []) then [] else personality_context_prompt p
        | None => []
        end
    | None => []
    end in
  let code_generation_prompt :=
    python_code_generation_prompt
      {| pf_current_date := utc_date; pf_query := q;
         pf_chat_history := chat_history; pf_context := context;
         pf_location := location; pf_username := username;
         pf_personality_context := personality_context |} in
  {| mr_message := code_generation_prompt; mr_query_images := query_images;
     mr_response_type := py "json_object"; mr_user := user;
     mr_tracer := tracer |}.

(** Lines 124-133 of [generate_python_code]: the reply of the model is
    cleaned, decoded and validated.  The validated [code] is returned as
    the [str] it is. *)
Definition parse_reply (response : pystr) : result (pystr * pyval * pyval) :=
  let response := clean_json response in
  response ← json_loads response;
  code ← py_get response (py "code") (PyStr []);
  code ← py_strip code;
  input_files ← py_get response (py "input_files") (PyList []);
  input_links ← py_get response (py "input_links") (PyList []);
  if negb (isinstance_str code) || is_none_or_empty code then Raise (ValueError [])
  else
    match code with
    | PyStr c => Ok (c, input_files, input_links)
    | _ => Raise (ValueError [])
    end.

(** [generate_python_code] *)
Definition generate_python_code (q : pystr) (conversation_history : pyval)
    (context : pystr) (location_data : option pystr) (user : KhojUser)
    (query_images : option (list pystr)) (agent : option Agent) (tracer : pyval)
    : M (pystr * pyval * pyval) :=
  utc_date ← ask utc_today;
  response ← send_message_to_model_wrapper
    (code_generation_request utc_date q conversation_history context
       location_data user query_images agent tracer);
  lift (parse_reply response).

(** The request [execute_sandboxed_python] posts: the cleaned code and
    the files as the JSON body, a JSON content type. *)
Definition sandbox_request (code : pystr) (input_data : list pyval)
    (sandbox_url : pystr) : HttpRequest :=
  let headers : gmap pystr pystr := {[ py "Content-Type" := py "application/json" ]} in
  let cleaned_code := clean_code_python code in
  let data :=
    PyDict (<[py "code" := PyStr cleaned_code]>
             (<[py "files" := PyList input_data]> ∅)) in
  {| rq_url := sandbox_url; rq_json := data; rq_headers := headers |}.

(** The result [execute_sandboxed_python] makes up for a status other
    than 200. *)
Definition failed_to_execute (cleaned_code : pystr) (status : Z) : gmap pystr pyval :=
  <[py "code" := PyStr cleaned_code]>
    (<[py "success" := PyBool false]>
      (<[py "std_err" := PyStr (py "Failed to execute code with " ++ str_int status)]>
        ∅)).

(** [execute_sandboxed_python] *)
Definition execute_sandboxed_python (code : pystr) (input_data : list pyval)
    (sandbox_url : pystr) : M (gmap pystr pyval) :=
  let cleaned_code := clean_code_python code in
  let request := sandbox_request code input_data sandbox_url in
  tell (log_http_post request);;
  posted ← ask (λ w, sandbox w request);
  response ← lift posted;
  if bool_decide (status response = 200%Z) then
    result ← lift (json response);
    lift (py_setitem result (py "code") (PyStr cleaned_code))
  else
    mret (failed_to_execute cleaned_code (status response)).

(** One element of [input_data], built from a stored file. *)
Definition input_artifact (f : FileObject) : result pyval :=
  let filename := basename (file_name f) in
  bs ← encode_utf8 (raw_text f);
  Ok (PyDict (<[py "filename" := PyStr filename]>
               (<[py "b64_data" := PyStr (b64encode bs)]> ∅))).

(** The "Prepare Input Data" block of [run_code]. *)
Definition prepare_input_data (user : KhojUser) (input_files : pyval)
    : M (list pyval) :=
  names ← lift (py_iter input_files);
  user_input_files ← for_each (async_get_file_objects_by_name user) names [];
  lift (map_result input_artifact user_input_files).

(** [if send_status_func: async for event in send_status_func(msg): yield
    {ChatEvent.STATUS: event}]; the events yielded go to [status_events]. *)
Definition send_status (send_status_func : option (pystr → list pyval))
    (msg : pystr) : M unit :=
  match send_status_func with
  | Some f => tell (log_status_events (f msg))
  | None => mret tt
  end.

(** [run_code].  The generator's items are the status events, recorded in
    the world, and then the mapping returned here; [Raise] is the
    exception the generator ends with. *)
Definition run_code (query : pystr) (conversation_history : pyval)
    (context : pystr) (location_data : option pystr) (user : KhojUser)
    (send_status_func : option (pystr → list pyval))
    (query_images : option (list pystr)) (agent : option Agent)
    (sandbox_url : pystr) (tracer : pyval) : M (gmap pystr pyval) :=
  send_status send_status_func (py "**Generate code snippet** for " ++ query);;
  '(code, input_files, input_links) ←
    try_except
      (generate_python_code query conversation_history context location_data
         user query_images agent tracer)
      (λ e, raise (ValueError (py "Failed to generate code for " ++ query
                               ++ py " with error: " ++ str_exn e)));
  input_data ← prepare_input_data user input_files;
  send_status send_status_func (py "**Running code snippet**");;
  try_except
    (result ← execute_sandboxed_python code input_data sandbox_url;
     '(code, result) ← lift (dict_pop result (py "code"));
     mret (<[query := PyDict (<[py "code" := code]>
                               (<[py "results" := PyDict result]> ∅))]> ∅))
    (λ e, raise (ValueError (py "Failed to run code for " ++ query
                             ++ py " with error: " ++ str_exn e))).

End Pipeline.

(** ** An implementation of the collaborators, to run the pipeline *)

(** A decoder for the fragment of JSON without float literals and without
    [\u] escapes of surrogate halves: objects, arrays, strings, integers,
    [true], [false], [null].  It stands for [json.loads] where the pipeline
    is run on a concrete reply; its error messages are shortened. *)
Module Json.

Definition is_ws (c : N) : bool :=
  (c =? 0x20) || (c =? 0x09) || (c =? 0x0A) || (c =? 0x0D).

Fixpoint skip_ws (s : pystr) : pystr :=
  match s with
  | c :: s' => if is_ws c then skip_ws s' else s
  | [] => []
  end.

Definition is_digit (c : N) : bool := (0x30 <=? c) && (c <=? 0x39).

Fixpoint digits (s : pystr) (acc : N) : N * pystr :=
  match s with
  | c :: s' => if is_digit c then digits s' (10 * acc + (c - 0x30)) else (acc, s)
  | [] => (acc, [])
  end.

Definition hex_value (c : N) : option N :=
  if is_digit c then Some (c - 0x30)
  else if (0x61 <=? c) && (c <=? 0x66) then Some (c - 0x61 + 10)
  else if (0x41 <=? c) && (c <=? 0x46) then Some (c - 0x41 + 10)
  else None.

(** The character a one-letter escape stands for. *)
Definition simple_escape (e : N) : option N :=
  if (e =? 0x22) || (e =? 0x5C) || (e =? 0x2F) then Some e
  else if e =? 0x62 then Some 0x08
  else if e =? 0x66 then Some 0x0C
  else if e =? 0x6E then Some 0x0A
  else if e =? 0x72 then Some 0x0D
  else if e =? 0x74 then Some 0x09
  else None.

(** The characters of a string literal, from after its opening quote to
    its closing quote, and the text that follows. *)
Fixpoint chars (s : pystr) : option (pystr * pystr) :=
  match s with
  | [] => None
  | c :: r =>
      if c =? 0x22 then Some ([], r)
      else if c =? 0x5C then
        match r with
        | [] => None
        | e :: r1 =>
            if e =? 0x75 then
              match r1 with
              | h3 :: h2 :: h1 :: h0 :: r2 =>
                  a ← hex_value h3; b ← hex_value h2;
                  c ← hex_value h1; d ← hex_value h0;
                  let u := ((a * 16 + b) * 16 + c) * 16 + d in
                  if is_surrogate u then None
                  else '(cs, rest) ← chars r2; Some (u :: cs, rest)
              | _ => None
              end
            else
              x ← simple_escape e;
              '(cs, rest) ← chars r1; Some (x :: cs, rest)
        end
      else if c <? 0x20 then None
      else '(cs, rest) ← chars r; Some (c :: cs, rest)
  end.

(** An integer literal that starts at the digit [d]; a fraction or an
    exponent after it makes a float, which is outside the fragment. *)
Definition integer (d : N) (r : pystr) : option (N * pystr) :=
  let '(n, rest) := if d =? 0x30 then (0, r) else digits (d :: r) 0 in
  match rest with
  | c :: _ => if (c =? 0x2E) || (c =? 0x65) || (c =? 0x45) then None else Some (n, rest)
  | [] => Some (n, rest)
  end.

(** [p] is a prefix of [s]: the rest of [s]. *)
Definition after (p : string) (s : pystr) : option pystr :=
  if bool_decide (take (List.length (py p)) s = py p)
  then Some (drop (List.length (py p)) s) else None.

Fixpoint value (fuel : nat) (s : pystr) : option (pyval * pystr) :=
  match fuel with
  | O => None
  | S fuel' =>
      match skip_ws s with
      | [] => None
      | c :: r =>
          if c =? 0x22 then '(cs, rest) ← chars r; Some (PyStr cs, rest)
          else if c =? 0x5B then
            match skip_ws r with
            | c' :: r' =>
                if c' =? 0x5D then Some (PyList [], r')
                else '(vs, rest) ← elements fuel' r; Some (PyList vs, rest)
            | [] => None
            end
          else if c =? 0x7B then
            match skip_ws r with
            | c' :: r' =>
                if c' =? 0x7D then Some (PyDict ∅, r')
                else
                  '(kvs, rest) ← members fuel' r;
                  Some (PyDict (foldl (λ m kv, <[kv.1 := kv.2]> m) ∅ kvs), rest)
            | [] => None
            end
          else if c =? 0x2D then
            match r with
            | d :: r' =>
                if is_digit d then
                  '(n, rest) ← integer d r'; Some (PyInt (- Z.of_N n), rest)
                else None
            | [] => None
            end
          else if is_digit c then
            '(n, rest) ← integer c r; Some (PyInt (Z.of_N n), rest)
          else
            match after "null" (c :: r), after "true" (c :: r), after "false" (c :: r) with
            | Some rest, _, _ => Some (PyNone, rest)
            | _, Some rest, _ => Some (PyBool true, rest)
            | _, _, Some rest => Some (PyBool false, rest)
            | _, _, _ => None
            end
      end
  end
with elements (fuel : nat) (s : pystr) : option (list pyval * pystr) :=
  match fuel with
  | O => None
  | S fuel' =>
      '(v, r) ← value fuel' s;
      match skip_ws r with
      | c :: r' =>
          if c =? 0x2C then '(vs, rest) ← elements fuel' r'; Some (v :: vs, rest)
          else if c =? 0x5D then Some ([v], r')
          else None
      | [] => None
      end
  end
with members (fuel : nat) (s : pystr) : option (list (pystr * pyval) * pystr) :=
  match fuel with
  | O => None
  | S fuel' =>
      match skip_ws s with
      | q :: r0 =>
          if q =? 0x22 then
            '(k, r1) ← chars r0;
            match skip_ws r1 with
            | colon :: r2 =>
                if colon =? 0x3A then
                  '(v, r) ← value fuel' r2;
                  match skip_ws r with
                  | c :: r' =>
                      if c =? 0x2C then
                        '(kvs, rest) ← members fuel' r'; Some ((k, v) :: kvs, rest)
                      else if c =? 0x7D then Some ([(k, v)], r')
                      else None
                  | [] => None
                  end
                else None
            | [] => None
            end
          else None
      | [] => None
      end
  end.

(** The decoder: one value, then only whitespace.  A key that occurs
    twice in an object keeps its last value. *)
Definition loads (s : pystr) : result pyval :=
  match value (S (List.length s)) s with
  | Some (v, r) =>
      if bool_decide (skip_ws r = []) then Ok v
      else Raise (OtherError "JSONDecodeError" (py "Extra data"))
  | None => Raise (OtherError "JSONDecodeError" (py "Expecting value"))
  end.

End Json.

(** [s.removeprefix(p)] *)
Definition removeprefix (p s : pystr) : pystr :=
  if bool_decide (take (List.length p) s = p) then drop (List.length p) s else s.

(** [s.removesuffix(p)] *)
Definition removesuffix (p s : pystr) : pystr :=
  reverse (removeprefix (reverse p) (reverse s)).

(** A backtick, three of which fence a block of code. *)
Definition fence : pystr := [0x60; 0x60; 0x60].

(** Modelled from the spec: [clean_code_python] is not under src/.  The
    spec has the sandbox client normalise the code by removing
    "formatting/fencing wrappers": the surrounding whitespace, an opening
    fence of a python block, a closing fence. *)
Definition strip_code_fence (code : pystr) : pystr :=
  removesuffix fence (removeprefix (fence ++ py "python") (strip code)).

(** Collaborators to run the pipeline with: the prompt templates reduced
    to their arguments, the history left out, the reply trimmed before it
    is decoded. *)
Definition reference : Collaborators := {|
  user_name_prompt name := py "Name: " ++ name;
  personality_context_prompt p := py "Personality: " ++ p;
  python_code_generation_prompt f :=
    pf_personality_context f ++ pf_username f ++ pf_query f;
  construct_chat_history _ := [];
  clean_json := strip;
  clean_code_python := strip_code_fence;
  json_loads := Json.loads |}.

(** Text written with ['] where the text has a quotation mark. *)
Definition quoted (s : string) : pystr :=
  (λ c, if c =? 0x27 then 0x22 else c) <$> py s.

(** A world with nothing recorded yet: the files stored, the reply of the
    model, the behaviour of the sandbox endpoint. *)
Definition fresh_world (store : list FileObject) (reply : result pystr)
    (endpoint : HttpRequest → result HttpResponse) : World :=
  {| file_store := store; utc_today := py "2024-11-01";
     model := λ _, reply; sandbox := endpoint;
     model_calls := []; db_lookups := []; http_posts := [];
     status_events := [] |}.

Definition alice : KhojUser := {| user_id := 1; get_full_name := py "Alice" |}.

(** Three stored files: two of [alice] with the same name, one of another
    user. *)
Definition some_files : list FileObject :=
  [ {| file_owner := 1; file_name := py "notes/data.csv"; raw_text := py "a,b" |};
    {| file_owner := 2; file_name := py "notes/data.csv"; raw_text := py "x" |};
    {| file_owner := 1; file_name := py "notes/data.csv"; raw_text := py "1,2" |} ].

(** The run of the spec's first end-to-end example: the query, the reply
    of the model, the body the sandbox answers status 200 with. *)
Definition add_two_numbers : pystr := py "add two numbers".

Definition reply_print : pystr :=
  quoted "{'code': 'print(1+1)', 'input_files': [], 'input_links': []}".

Definition sandbox_says_2 : HttpRequest → result HttpResponse :=
  λ _, Ok {| status := 200%Z;
             json := Json.loads (quoted "{'success': true, 'std_out': '2\n'}") |}.

(** A sandbox endpoint that answers every request with the status [s] and
    a body that is not read. *)
Definition sandbox_status (s : Z) : HttpRequest → result HttpResponse :=
  λ _, Ok {| status := s; json := Ok (PyDict ∅) |}.

(** A sandbox endpoint that answers status 200 with a body that has a
    [code] of its own. *)
Definition sandbox_echo : HttpRequest → result HttpResponse :=
  λ _, Ok {| status := 200%Z;
             json := Ok (PyDict (<[py "code" := PyStr (py "something else")]>
                                  (<[py "success" := PyBool true]> ∅))) |}.

(** A sandbox endpoint that cannot be reached. *)
Definition sandbox_down : HttpRequest → result HttpResponse :=
  λ _, Raise (OtherError "ClientConnectorError" (py "Cannot connect to host")).

(** Replies of the model: code in a fence with two input files, no
    [code], a [code] that is a number, a [code] of spaces, no JSON. *)
Definition reply_with_files : pystr :=
  quoted "{'code': '  import csv ', 'input_files': ['notes/data.csv', 'missing.txt']}".

Definition reply_without_code_key : pystr := quoted "{'input_files': []}".

Definition reply_code_42 : pystr := quoted "{'code': 42}".

Definition reply_code_spaces : pystr := quoted "{'code': '   '}".

Definition reply_prose : pystr := py "Here is the code you asked for".

Definition localhost : pystr := py "http://localhost:8080".

(** More replies of the model: an array, [input_files] that is [null],
    one file asked for by name. *)
Definition reply_array : pystr := quoted "[1, 2]".

Definition reply_null_files : pystr :=
  quoted "{'code': 'print(1+1)', 'input_files': null}".

Definition reply_bad_file : pystr :=
  quoted "{'code': 'print(1+1)', 'input_files': ['notes/data.csv', 'bad.txt']}".

(** The files of [some_files] and one of [alice] whose content ends in a
    lone surrogate. *)
Definition bad_file : FileObject :=
  {| file_owner := 1; file_name := py "bad.txt"; raw_text := py "a" ++ [0xD800] |}.

Definition files_with_bad : list FileObject := some_files ++ [bad_file].

(** A sandbox endpoint that answers status 200 with a JSON array. *)
Definition sandbox_says_list : HttpRequest → result HttpResponse :=
  λ _, Ok {| status := 200%Z; json := Ok (PyList [PyInt 2]) |}.

(** [run_code] with the arguments the examples leave at their defaults. *)
Definition run_query `{Collaborators} (query : pystr) (user : KhojUser) : M (gmap pystr pyval) :=
  run_code query (PyDict ∅) [] None user None None None localhost (PyDict ∅).

(** ** The vocabulary of the properties *)

(** How an invocation of [run_code] ends: on [Completed] it has yielded
    the final mapping, on [Failed] it has raised. *)
Inductive outcome : Type :=
  | Completed (output : gmap pystr pyval)
  | Failed (error : exn).

Definition outcome_of (r : result (gmap pystr pyval) * World) : outcome :=
  match r.1 with
  | Ok output => Completed output
  | Raise e => Failed e
  end.

(** A string made of whitespace only (the empty string is one). *)
Definition blank (s : pystr) : Prop := Forall (λ c, py_isspace c = true) s.

(** A text without surrogate code points, the text that has a UTF-8
    encoding. *)
Definition encodable (s : pystr) : Prop := Forall (λ c, is_surrogate c = false) s.

(** The UTF-8 bytes of an encodable text. *)
Definition utf8_bytes (s : pystr) : list N := s ≫= utf8_char.

(** The stored entries of [user] named [name]. *)
Definition matching (user : KhojUser) (name : pystr) (store : list FileObject)
    : list FileObject :=
  stored_entries user (PyStr name) store.

(** The artifact of a stored entry: the basename of its name, the base64
    text of the UTF-8 bytes of its content. *)
Definition artifact (f : FileObject) : pyval :=
  PyDict (<[py "filename" := PyStr (basename (file_name f))]>
           (<[py "b64_data" := PyStr (b64encode (utf8_bytes (raw_text f)))]> ∅)).

(** The final mapping of a completed run: the query, mapped to the code
    that ran and to the rest of what the sandbox client returned. *)
Definition final_mapping (query : pystr) (code : pyval) (results : gmap pystr pyval)
    : gmap pystr pyval :=
  <[query := PyDict (<[py "code" := code]> (<[py "results" := PyDict results]> ∅))]> ∅.

(** The world once [send_status_func], if there is one, has reported
    [msg]. *)
Definition after_status (send_status_func : option (pystr → list pyval))
    (msg : pystr) (w : World) : World :=
  (send_status send_status_func msg w).2.

(** The world once the names [names] have been looked up for [user]. *)
Definition after_lookups (user : KhojUser) (names : list pyval) (w : World) : World :=
  foldl (λ w name, log_db_lookup (user, name) w) w names.

(** The output the spec's first end-to-end example states, with [code]
    among the [results]. *)
Definition stated_output : gmap pystr pyval :=
  final_mapping add_two_numbers (PyStr (py "print(1+1)"))
    (<[py "success" := PyBool true]>
      (<[py "std_out" := PyStr (py "2" ++ [0x0A])]>
        (<[py "code" := PyStr (py "print(1+1)")]> ∅))).

(** The output of that run: the [results] are without [code]. *)
Definition actual_output : gmap pystr pyval :=
  final_mapping add_two_numbers (PyStr (py "print(1+1)"))
    (<[py "success" := PyBool true]>
      (<[py "std_out" := PyStr (py "2" ++ [0x0A])]> ∅)).

(** The [code] among the [results] of a final mapping, when it is there. *)
Definition results_code (query : pystr) (output : outcome) : option pyval :=
  match output with
  | Completed m =>
      match m !! query with
      | Some (PyDict entry) =>
          match entry !! py "results" with
          | Some (PyDict results) => results !! py "code"
          | _ => None
          end
      | _ => None
      end
  | Failed _ => None
  end.

(** [ValueError(f"Failed to generate code for {query} with error: {e}")],
    what [run_code] raises when synthesis raised [e] (line 58). *)
Definition generation_error (query : pystr) (e : exn) : exn :=
  ValueError (py "Failed to generate code for " ++ query ++ py " with error: "
              ++ str_exn e).

(** [ValueError(f"Failed to run code for {query} with error: {e}")], what
    [run_code] raises when the execution block raised [e] (line 84). *)
Definition execution_error (query : pystr) (e : exn) : exn :=
  ValueError (py "Failed to run code for " ++ query ++ py " with error: "
              ++ str_exn e).

(** The two status messages of [run_code] (lines 43 and 75). *)
Definition generating_status (query : pystr) : pystr :=
  py "**Generate code snippet** for " ++ query.

Definition running_status : pystr := py "**Running code snippet**".

(** The characters of the base64 alphabet, and the padding character. *)
Definition is_b64_char (c : N) : bool :=
  ((0x41 <=? c) && (c <=? 0x5A)) || ((0x61 <=? c) && (c <=? 0x7A))
  || ((0x30 <=? c) && (c <=? 0x39)) || (c =? 0x2B) || (c =? 0x2F).

Definition is_b64_text (s : pystr) : Prop :=
  Forall (λ c, is_b64_char c = true ∨ c = 0x3D) s.

(** The 6-bit value a character of the base64 alphabet stands for. *)
Definition b64_index (c : N) : N :=
  if (0x41 <=? c) && (c <=? 0x5A) then c - 0x41
  else if (0x61 <=? c) && (c <=? 0x7A) then c - 0x61 + 26
  else if (0x30 <=? c) && (c <=? 0x39) then c - 0x30 + 52
  else if c =? 0x2B then 62
  else 63.

(** The bytes a base64 text stands for: four characters give three
    bytes, and a group that ends in one or two padding characters gives
    two bytes or one. *)
Fixpoint b64decode (s : pystr) : list N :=
  match s with
  | c0 :: c1 :: c2 :: c3 :: rest =>
      let b0 := N.lor (N.shiftl (b64_index c0) 2) (N.shiftr (b64_index c1) 4) in
      let b1 := N.lor (N.land (N.shiftl (b64_index c1) 4) 0xFF)
                  (N.shiftr (b64_index c2) 2) in
      let b2 := N.lor (N.land (N.shiftl (b64_index c2) 6) 0xFF) (b64_index c3) in
      if c2 =? 0x3D then [b0]
      else if c3 =? 0x3D then [b0; b1]
      else b0 :: b1 :: b2 :: b64decode rest
  | _ => []
  end.

(** The bytes: the numbers below 256. *)
Definition bytes_below_256 : list N := N.of_nat <$> seq 0 256.

(** A text whose characters are code points, as those of a [str] are. *)
Definition code_points (s : pystr) : Prop := Forall (λ c, c < 0x110000) s.

Section Vocabulary.
Context {C : Collaborators}.

(** The replies of the model that synthesis must refuse: not JSON, no
    [code], a [code] that is not a string, a [code] that is empty or
    whitespace only. *)
Inductive refused_reply (reply : pystr) : Prop :=
  | reply_not_json e :
      json_loads (clean_json reply) = Raise e → refused_reply reply
  | reply_without_code d :
      json_loads (clean_json reply) = Ok (PyDict d) →
      d !! py "code" = None → refused_reply reply
  | reply_code_not_str d v :
      json_loads (clean_json reply) = Ok (PyDict d) →
      d !! py "code" = Some v → isinstance_str v = false → refused_reply reply
  | reply_code_blank d s :
      json_loads (clean_json reply) = Ok (PyDict d) →
      d !! py "code" = Some (PyStr s) → blank s → refused_reply reply.

End Vocabulary.

(** * Properties *)

(** ** Strings *)

Lemma lstrip_split (s : pystr) : ∃ ws, s = ws ++ lstrip s ∧ blank ws.
Proof.
  induction s as [|c s [ws [Hs Hws]]]; simpl.
  - exists []. split; [done | constructor].
  - destruct (py_isspace c) eqn:Hc.
    + exists (c :: ws). split; [by rewrite Hs at 1 | by constructor].
    + exists []. split; [done | constructor].
Qed.

Lemma lstrip_head (s : pystr) (c : N) (r : pystr) :
  lstrip s = c :: r → py_isspace c = false.
Proof.
  induction s as [|x s IH]; simpl; [done |].
  destruct (py_isspace x) eqn:Hx; [done |].
  intros [= -> _]. done.
Qed.

Lemma lstrip_blank (s : pystr) : lstrip s = [] ↔ blank s.
Proof.
  induction s as [|c s IH]; simpl.
  - split; [constructor | done].
  - destruct (py_isspace c) eqn:Hc.
    + rewrite IH. split; [by constructor | by inversion 1].
    + split; [done | inversion 1; congruence].
Qed.

Lemma lstrip_idemp (s : pystr) : lstrip (lstrip s) = lstrip s.
Proof.
  destruct (lstrip s) as [|c r] eqn:E; [done |].
  simpl. by rewrite (lstrip_head _ _ _ E).
Qed.

Lemma blank_reverse (s : pystr) : blank (reverse s) ↔ blank s.
Proof. unfold blank. by rewrite Forall_reverse. Qed.

Lemma blank_app (s t : pystr) : blank (s ++ t) ↔ blank s ∧ blank t.
Proof. apply Forall_app. Qed.

(** [strip] removes whitespace at both ends and nothing else. *)
Lemma strip_split (s : pystr) :
  ∃ l r, s = l ++ strip s ++ r ∧ blank l ∧ blank r.
Proof.
  destruct (lstrip_split s) as [l [Hl Bl]].
  destruct (lstrip_split (reverse (lstrip s))) as [r [Hr Br]].
  exists l, (reverse r). split; [| split; [done | by apply blank_reverse]].
  unfold strip, rstrip. rewrite <- reverse_app, <- Hr, reverse_involutive. done.
Qed.

(** What [strip] returns neither starts nor ends with whitespace. *)
Lemma strip_ends (s : pystr) (c : N) :
  (head (strip s) = Some c → py_isspace c = false)
  ∧ (last (strip s) = Some c → py_isspace c = false).
Proof.
  unfold strip, rstrip. split.
  - destruct (lstrip_split (reverse (lstrip s))) as [ws [Hws Bws]].
    apply (f_equal reverse) in Hws.
    rewrite reverse_involutive, reverse_app in Hws.
    destruct (reverse (lstrip (reverse (lstrip s)))) as [|x t] eqn:E; [done |].
    simpl. intros [= ->].
    destruct (lstrip s) as [|y u] eqn:E'; [by destruct t, (reverse ws) |].
    simpl in Hws. injection Hws as -> _. by apply (lstrip_head _ _ _ E').
  - rewrite last_reverse.
    destruct (lstrip (reverse (lstrip s))) as [|x t] eqn:E; [done |].
    simpl. intros [= ->]. by apply (lstrip_head _ _ _ E).
Qed.

Lemma strip_blank (s : pystr) : strip s = [] ↔ blank s.
Proof.
  destruct (strip_split s) as [l [r [Hs [Bl Br]]]]. split.
  - intros E. rewrite E in Hs. rewrite Hs. simpl. by apply blank_app.
  - intros B. unfold strip, rstrip.
    apply lstrip_blank in B. rewrite B. done.
Qed.

Lemma rfind_from_spec (c : N) (s : pystr) (i found : Z) :
((c ∉ s) ∧ rfind_from c s i found = found)
  ∨ (∃ k : nat, rfind_from c s i found = (i + Z.of_nat k)%Z
       ∧ s !! k = Some c ∧ (c ∉ drop (S k) s)).
Proof.
  revert i found. induction s as [|x s IH]; intros i found; simpl.
  - left. split; [apply not_elem_of_nil | done].
  - destruct (IH (i + 1)%Z (if x =? c then i else found)) as [[Hn ->]|[k [-> [Hk Hd]]]].
    + destruct (N.eqb_spec x c) as [->|Hxc].
      * right. exists O. split; [lia | split; [done | by rewrite drop_0]].
      * left. split; [| done]. rewrite not_elem_of_cons. split; [congruence | done].
    + right. exists (S k). split; [lia | done].
Qed.

(** [basename] keeps what follows the last slash: a path is a directory
    part, empty or ending in a slash, and then its basename, which holds
    no slash. *)
Lemma basename_spec (p : pystr) :
  ∃ dir, p = dir ++ basename p ∧ (0x2F ∉ basename p)
         ∧ (dir = [] ∨ last dir = Some 0x2F).
Proof.
  unfold basename, rfind.
  destruct (rfind_from_spec 0x2F p 0 (-1)) as [[Hn ->]|[k [-> [Hk Hd]]]].
  - exists []. simpl. rewrite drop_0. auto.
  - replace (Z.to_nat (0 + Z.of_nat k + 1)) with (S k) by lia.
    exists (take (S k) p). split; [by rewrite take_drop | split; [done |]].
    right. rewrite (take_S_r _ _ _ Hk). apply last_snoc.
Qed.

(** ** Codecs *)

Lemma encode_utf8_from_encodable (whole s : pystr) (i : nat) :
  encodable s → encode_utf8_from whole i s = Ok (utf8_bytes s).
Proof.
  revert i. induction s as [|c s IH]; intros i Hs; [done |].
  inversion Hs as [|? ? Hc Hs']; subst. simpl. rewrite Hc.
  rewrite (IH (S i) Hs'). done.
Qed.

(** An encodable text is encoded, to its UTF-8 bytes. *)
Lemma encode_utf8_encodable (s : pystr) :
  encodable s → encode_utf8 s = Ok (utf8_bytes s).
Proof. apply encode_utf8_from_encodable. Qed.

(** A text with a surrogate is refused. *)
Lemma encode_utf8_from_surrogate (whole s : pystr) (i : nat) :
  ¬ encodable s → ∃ e, encode_utf8_from whole i s = Raise e.
Proof.
  revert i. induction s as [|c s IH]; intros i Hs.
  - destruct Hs. constructor.
  - simpl. destruct (is_surrogate c) eqn:Hc; [eauto |].
    destruct (IH (S i)) as [e ->]; [| by exists e].
    intros Hs'. apply Hs. by constructor.
Qed.

Lemma list_ind3 {A} (P : list A → Prop) :
  P [] → (∀ a, P [a]) → (∀ a b, P [a; b]) →
  (∀ a b c l, P l → P (a :: b :: c :: l)) → ∀ l, P l.
Proof.
  intros H0 H1 H2 H3 l.
  assert (P l ∧ (∀ a, P (a :: l)) ∧ (∀ a b, P (a :: b :: l))) as [? _]; [| done].
  induction l as [|x l [IH0 [IH1 IH2]]]; [by auto |].
  split; [apply IH1 | split; [intros a; apply IH2 | intros a b; by apply H3]].
Qed.

Lemma b64_char_ascii (i : N) : b64_char i < 128.
Proof.
  unfold b64_char.
  destruct (N.ltb_spec i 26); [lia |].
  destruct (N.ltb_spec i 52); [lia |].
  destruct (N.ltb_spec i 62); [lia |].
  destruct (i =? 62); lia.
Qed.

(** The base64 text is ASCII: decoding its bytes as UTF-8 gives the
    characters of the same values. *)
Lemma b64encode_ascii (bs : list N) : Forall (λ c, c < 128) (b64encode bs).
Proof.
  induction bs as [|a|a b|a b c l IH] using list_ind3; simpl;
    repeat (constructor; try apply b64_char_ascii; try lia); done.
Qed.

(** Four characters for every three bytes, the last group padded. *)
Lemma b64encode_length (bs : list N) :
  List.length (b64encode bs) = (4 * ((List.length bs + 2) / 3))%nat.
Proof.
  induction bs as [|a|a b|a b c l IH] using list_ind3; [done..|].
  cbn [b64encode List.length]. rewrite IH.
  replace (S (S (S (List.length l))) + 2)%nat with (1 * 3 + (List.length l + 2))%nat by lia.
  rewrite Nat.div_add_l by lia. lia.
Qed.

(** ** The sandbox client *)

(** Two keys of the source are different strings. *)
Ltac py_neq := let H := fresh in intros H; vm_compute in H; discriminate H.

(** Unfold one layer of the computations. *)
Ltac run := unfold mbind, M_bind, mret, M_ret, tell, ask, lift, raise, try_except; simpl.

Section Properties.
Context {C : Collaborators}.

(** The request that is posted carries the cleaned code. *)
Lemma sandbox_request_code (code : pystr) (input_data : list pyval) (sandbox_url : pystr) :
  ∃ sent, rq_json (sandbox_request code input_data sandbox_url) = PyDict sent
          ∧ sent !! py "code" = Some (PyStr (clean_code_python code))
          ∧ sent !! py "files" = Some (PyList input_data).
Proof.
  eexists. split; [reflexivity |]. split.
  - apply lookup_insert_eq.
  - rewrite lookup_insert_ne by py_neq. apply lookup_insert_eq.
Qed.

(** The made-up result has three fields. *)
Lemma failed_to_execute_fields (cleaned_code : pystr) (s : Z) :
  failed_to_execute cleaned_code s !! py "code" = Some (PyStr cleaned_code)
  ∧ failed_to_execute cleaned_code s !! py "success" = Some (PyBool false)
  ∧ failed_to_execute cleaned_code s !! py "std_err"
    = Some (PyStr (py "Failed to execute code with " ++ str_int s))
  ∧ dom (failed_to_execute cleaned_code s)
    = {[ py "code"; py "success"; py "std_err" ]}.
Proof.
  unfold failed_to_execute. split; [| split; [| split]].
  - apply lookup_insert_eq.
  - rewrite lookup_insert_ne by py_neq. apply lookup_insert_eq.
  - do 2 rewrite lookup_insert_ne by py_neq. apply lookup_insert_eq.
  - rewrite !dom_insert_L, dom_empty_L. set_solver.
Qed.

(** On status 200 with a JSON object as body, the result is the body
    with [code] set to the cleaned code. *)
Lemma execute_200 (code : pystr) (input_data : list pyval) (sandbox_url : pystr)
    (w : World) (response : HttpResponse) (body : gmap pystr pyval) :
  sandbox w (sandbox_request code input_data sandbox_url) = Ok response →
  status response = 200%Z →
  json response = Ok (PyDict body) →
  execute_sandboxed_python code input_data sandbox_url w
  = (Ok (<[py "code" := PyStr (clean_code_python code)]> body),
     log_http_post (sandbox_request code input_data sandbox_url) w).
Proof.
  intros Hpost Hstatus Hjson. unfold execute_sandboxed_python. run.
  rewrite Hpost. simpl. rewrite bool_decide_true by done. run.
  rewrite Hjson. done.
Qed.

(** On any other status the result is made up, whatever the body. *)
Lemma execute_not_200 (code : pystr) (input_data : list pyval) (sandbox_url : pystr)
    (w : World) (response : HttpResponse) :
  sandbox w (sandbox_request code input_data sandbox_url) = Ok response →
  status response ≠ 200%Z →
  execute_sandboxed_python code input_data sandbox_url w
  = (Ok (failed_to_execute (clean_code_python code) (status response)),
     log_http_post (sandbox_request code input_data sandbox_url) w).
Proof.
  intros Hpost Hstatus. unfold execute_sandboxed_python. run.
  rewrite Hpost. simpl. rewrite bool_decide_false by done. done.
Qed.

(** An exception out of the post is the exception of the client. *)
Lemma execute_transport_error (code : pystr) (input_data : list pyval)
    (sandbox_url : pystr) (w : World) (e : exn) :
  sandbox w (sandbox_request code input_data sandbox_url) = Raise e →
  execute_sandboxed_python code input_data sandbox_url w
  = (Raise e, log_http_post (sandbox_request code input_data sandbox_url) w).
Proof.
  intros Hpost. unfold execute_sandboxed_python. run. rewrite Hpost. done.
Qed.

(** Whatever the client returns has [code] set to the cleaned code, and
    the client posts exactly once and touches nothing else. *)
Lemma execute_returns_code (code : pystr) (input_data : list pyval)
    (sandbox_url : pystr) (w w' : World) (result : gmap pystr pyval) :
  execute_sandboxed_python code input_data sandbox_url w = (Ok result, w') →
  result !! py "code" = Some (PyStr (clean_code_python code))
  ∧ w' = log_http_post (sandbox_request code input_data sandbox_url) w.
Proof.
  unfold execute_sandboxed_python. run.
  destruct (sandbox w _) as [response|e]; simpl; [| done].
  case_bool_decide; run.
  - destruct (json response) as [[| | | | | |d]|e]; simpl; try done.
    intros [= <- <-]. split; [apply lookup_insert_eq | done].
  - intros [= <- <-]. split; [apply failed_to_execute_fields | done].
Qed.

(** C1: on status 200 (the body being a JSON object, as the sandbox
    answers), [execute_sandboxed_python] returns a dictionary whose
    [code] is the cleaned code, which is the code that the request
    carried; every other field is the body's, and a [code] field of the
    body is overwritten. *)
Theorem execute_200_code_is_sent_code (code : pystr) (input_data : list pyval)
    (sandbox_url : pystr) (w : World) (response : HttpResponse)
    (body : gmap pystr pyval) :
  sandbox w (sandbox_request code input_data sandbox_url) = Ok response →
  status response = 200%Z →
  json response = Ok (PyDict body) →
  ∃ result w' sent,
    execute_sandboxed_python code input_data sandbox_url w = (Ok result, w')
    ∧ result !! py "code" = Some (PyStr (clean_code_python code))
    ∧ (∀ k, k ≠ py "code" → result !! k = body !! k)
    ∧ http_posts w' = http_posts w ++ [sandbox_request code input_data sandbox_url]
    ∧ rq_json (sandbox_request code input_data sandbox_url) = PyDict sent
    ∧ sent !! py "code" = Some (PyStr (clean_code_python code)).
Proof.
  intros Hpost Hstatus Hjson.
  destruct (sandbox_request_code code input_data sandbox_url) as [sent [Hsent [Hcode _]]].
  eexists _, _, sent. split; [by apply (execute_200 _ _ _ _ response body) |].
  split; [apply lookup_insert_eq |].
  split; [intros k Hk; by apply lookup_insert_ne |]. done.
Qed.

(** C3: on a status outside the success class the client raises
    nothing and returns [success] false, [std_err] the text
    "Failed to execute code with " followed by the status in decimal, and
    [code] the cleaned code. *)
Theorem execute_non_success_status (code : pystr) (input_data : list pyval)
    (sandbox_url : pystr) (w : World) (response : HttpResponse) :
  sandbox w (sandbox_request code input_data sandbox_url) = Ok response →
  ¬ (200 ≤ status response < 300)%Z →
  ∃ result w',
    execute_sandboxed_python code input_data sandbox_url w = (Ok result, w')
    ∧ result !! py "success" = Some (PyBool false)
    ∧ result !! py "std_err"
      = Some (PyStr (py "Failed to execute code with " ++ str_int (status response)))
    ∧ result !! py "code" = Some (PyStr (clean_code_python code)).
Proof.
  intros Hpost Hstatus.
  eexists _, _. split; [apply (execute_not_200 _ _ _ _ response Hpost); lia |].
  destruct (failed_to_execute_fields (clean_code_python code) (status response))
    as (? & ? & ? & _). done.
Qed.

(** C9: only status 200 is success.  On every other status, 201 and 204
    among them, the body is not read (it may be anything, even not JSON)
    and the result is the made-up failure: [code], [success] false,
    [std_err] with the status. *)
Theorem execute_only_200_is_success (code : pystr) (input_data : list pyval)
    (sandbox_url : pystr) (w : World) (s : Z) (body : result pyval) :
  sandbox w (sandbox_request code input_data sandbox_url)
  = Ok {| status := s; json := body |} →
  s ≠ 200%Z →
  (execute_sandboxed_python code input_data sandbox_url w).1
  = Ok (<[py "code" := PyStr (clean_code_python code)]>
         (<[py "success" := PyBool false]>
           (<[py "std_err" := PyStr (py "Failed to execute code with " ++ str_int s)]>
             ∅))).
Proof.
  intros Hpost Hs.
  by rewrite (execute_not_200 _ _ _ _ _ Hpost).
Qed.

(** ** Code synthesis *)

(** [generate_python_code] asks the model once and parses its reply. *)
Lemma generate_python_code_run (q : pystr) (conversation_history : pyval)
    (context : pystr) (location_data : option pystr) (user : KhojUser)
    (query_images : option (list pystr)) (agent : option Agent) (tracer : pyval)
    (w : World) :
  let request := code_generation_request (utc_today w) q conversation_history
                   context location_data user query_images agent tracer in
  generate_python_code q conversation_history context location_data user
    query_images agent tracer w
  = (reply ← model w request; parse_reply reply, log_model_call request w).
Proof.
  unfold generate_python_code, send_message_to_model_wrapper. run.
  destruct (model w _); done.
Qed.

(** A reply with a [code] that is a string and not blank is accepted. *)
Lemma parse_reply_accepts (reply : pystr) (d : gmap pystr pyval) (s : pystr) :
  json_loads (clean_json reply) = Ok (PyDict d) →
  d !! py "code" = Some (PyStr s) →
  strip s ≠ [] →
  parse_reply reply
  = Ok (strip s, from_option id (PyList []) (d !! py "input_files"),
        from_option id (PyList []) (d !! py "input_links")).
Proof.
  intros Hjson Hcode Hs. unfold parse_reply. rewrite Hjson. simpl.
  rewrite Hcode. simpl. rewrite bool_decide_false by done. done.
Qed.

(** What [strip()] returns is a string: the [isinstance] test of the
    validation never fails. *)
Lemma py_strip_returns_str (v code : pyval) :
  py_strip v = Ok code → isinstance_str code = true.
Proof. destruct v; simpl; try done. by intros [= <-]. Qed.

(** [strip()] on a value that is not a string raises [AttributeError]. *)
Lemma py_strip_not_str (v : pyval) :
  isinstance_str v = false →
  py_strip v
  = Raise (AttributeError (py "'" ++ type_name v ++ py "' object has no attribute 'strip'")).
Proof. by destruct v. Qed.

(** A refused reply makes the parsing raise. *)
Lemma parse_reply_refuses (reply : pystr) :
  refused_reply reply → ∃ e, parse_reply reply = Raise e.
Proof.
  intros [e Hjson|d Hjson Hcode|d v Hjson Hcode Hv|d s Hjson Hcode Hs];
    unfold parse_reply; rewrite Hjson; simpl.
  - by exists e.
  - rewrite Hcode. simpl. by eexists.
  - rewrite Hcode. simpl. rewrite (py_strip_not_str v Hv). by eexists.
  - rewrite Hcode. simpl. apply strip_blank in Hs. rewrite Hs. by eexists.
Qed.

(** C4: when the reply of the model decodes to a JSON object whose
    [code] is a string that is not empty once trimmed,
    [generate_python_code] returns that code trimmed, with the reply's
    [input_files] and [input_links], each the empty list when its key is
    absent. *)
Theorem generate_returns_trimmed_code (q : pystr) (conversation_history : pyval)
    (context : pystr) (location_data : option pystr) (user : KhojUser)
    (query_images : option (list pystr)) (agent : option Agent) (tracer : pyval)
    (w : World) (reply : pystr) (d : gmap pystr pyval) (s : pystr) :
  model w (code_generation_request (utc_today w) q conversation_history context
             location_data user query_images agent tracer) = Ok reply →
  json_loads (clean_json reply) = Ok (PyDict d) →
  d !! py "code" = Some (PyStr s) →
  strip s ≠ [] →
  (generate_python_code q conversation_history context location_data user
     query_images agent tracer w).1
  = Ok (strip s,
        match d !! py "input_files" with Some files => files | None => PyList [] end,
        match d !! py "input_links" with Some links => links | None => PyList [] end).
Proof.
  intros Hmodel Hjson Hcode Hs. rewrite generate_python_code_run. simpl.
  rewrite Hmodel. simpl. rewrite (parse_reply_accepts reply d s) by done.
  by destruct (d !! py "input_files"), (d !! py "input_links").
Qed.

(** A [code] that is present and not a string makes the parsing raise
    the [AttributeError] of [strip]. *)
Lemma parse_reply_code_not_str (reply : pystr) (d : gmap pystr pyval) (v : pyval) :
  json_loads (clean_json reply) = Ok (PyDict d) →
  d !! py "code" = Some v →
  isinstance_str v = false →
  parse_reply reply
  = Raise (AttributeError (py "'" ++ type_name v ++ py "' object has no attribute 'strip'")).
Proof.
  intros Hjson Hcode Hv. unfold parse_reply. rewrite Hjson. simpl.
  rewrite Hcode. simpl. by rewrite (py_strip_not_str v Hv).
Qed.

(** ** The orchestration *)

Lemma send_status_run (send_status_func : option (pystr → list pyval))
    (msg : pystr) (w : World) :
  send_status send_status_func msg w = (Ok tt, after_status send_status_func msg w).
Proof. unfold after_status. by destruct send_status_func. Qed.

(** Reporting a status changes the status events and nothing else. *)
Lemma after_status_frame (send_status_func : option (pystr → list pyval))
    (msg : pystr) (w : World) :
  let w' := after_status send_status_func msg w in
  file_store w' = file_store w ∧ utc_today w' = utc_today w
  ∧ model w' = model w ∧ sandbox w' = sandbox w
  ∧ model_calls w' = model_calls w ∧ db_lookups w' = db_lookups w
  ∧ http_posts w' = http_posts w.
Proof. unfold after_status. by destruct send_status_func. Qed.

(** When synthesis raises, [run_code] raises the wrapped exception at
    once, in the world synthesis left. *)
Lemma run_code_generation_raises (query : pystr) (conversation_history : pyval)
    (context : pystr) (location_data : option pystr) (user : KhojUser)
    (send_status_func : option (pystr → list pyval))
    (query_images : option (list pystr)) (agent : option Agent)
    (sandbox_url : pystr) (tracer : pyval) (w w1 : World) (e : exn) :
  generate_python_code query conversation_history context location_data user
    query_images agent tracer
    (after_status send_status_func (py "**Generate code snippet** for " ++ query) w)
  = (Raise e, w1) →
  run_code query conversation_history context location_data user send_status_func
    query_images agent sandbox_url tracer w
  = (Raise (ValueError (py "Failed to generate code for " ++ query
                        ++ py " with error: " ++ str_exn e)), w1).
Proof.
  intros Hgen. unfold run_code.
  unfold mbind at 1, M_bind at 1. rewrite send_status_run.
  unfold mbind at 1, M_bind at 1, try_except at 1. rewrite Hgen. done.
Qed.

(** When resolution raises, [run_code] raises the same exception,
    unwrapped: the block is outside the two [try] statements. *)
Lemma run_code_resolution_raises (query : pystr) (conversation_history : pyval)
    (context : pystr) (location_data : option pystr) (user : KhojUser)
    (send_status_func : option (pystr → list pyval))
    (query_images : option (list pystr)) (agent : option Agent)
    (sandbox_url : pystr) (tracer : pyval) (w w1 w2 : World)
    (code : pystr) (input_files input_links : pyval) (e : exn) :
  generate_python_code query conversation_history context location_data user
    query_images agent tracer
    (after_status send_status_func (py "**Generate code snippet** for " ++ query) w)
  = (Ok (code, input_files, input_links), w1) →
  prepare_input_data user input_files w1 = (Raise e, w2) →
  run_code query conversation_history context location_data user send_status_func
    query_images agent sandbox_url tracer w
  = (Raise e, w2).
Proof.
  intros Hgen Hprep. unfold run_code.
  unfold mbind at 1, M_bind at 1. rewrite send_status_run.
  unfold mbind at 1, M_bind at 1, try_except at 1. rewrite Hgen.
  unfold mbind at 1, M_bind at 1. rewrite Hprep. done.
Qed.

(** When synthesis and resolution return, [run_code] ends as the
    sandbox client and the [pop] of [code] decide. *)
Lemma run_code_stages (query : pystr) (conversation_history : pyval)
    (context : pystr) (location_data : option pystr) (user : KhojUser)
    (send_status_func : option (pystr → list pyval))
    (query_images : option (list pystr)) (agent : option Agent)
    (sandbox_url : pystr) (tracer : pyval) (w w1 w2 : World)
    (code : pystr) (input_files input_links : pyval) (input_data : list pyval) :
  generate_python_code query conversation_history context location_data user
    query_images agent tracer
    (after_status send_status_func (py "**Generate code snippet** for " ++ query) w)
  = (Ok (code, input_files, input_links), w1) →
  prepare_input_data user input_files w1 = (Ok input_data, w2) →
  run_code query conversation_history context location_data user send_status_func
    query_images agent sandbox_url tracer w
  = match execute_sandboxed_python code input_data sandbox_url
            (after_status send_status_func (py "**Running code snippet**") w2) with
    | (Ok result, w3) =>
        match dict_pop result (py "code") with
        | Ok (code', results) => (Ok (final_mapping query code' results), w3)
        | Raise e =>
            (Raise (ValueError (py "Failed to run code for " ++ query
                                ++ py " with error: " ++ str_exn e)), w3)
        end
    | (Raise e, w3) =>
        (Raise (ValueError (py "Failed to run code for " ++ query
                            ++ py " with error: " ++ str_exn e)), w3)
    end.
Proof.
  intros Hgen Hprep. unfold run_code.
  unfold mbind at 1, M_bind at 1. rewrite send_status_run.
  unfold mbind at 1, M_bind at 1, try_except at 1. rewrite Hgen.
  unfold mbind at 1, M_bind at 1. rewrite Hprep.
  unfold mbind at 1, M_bind at 1. rewrite send_status_run.
  unfold try_except, mbind, M_bind.
  destruct (execute_sandboxed_python _ _ _ _) as [[result|e] w3]; [| done].
  unfold lift. by destruct (dict_pop result (py "code")) as [[code' results]|e].
Qed.

(** Synthesis does not depend on the status events reported before it. *)
Lemma generate_after_status (q : pystr) (conversation_history : pyval)
    (context : pystr) (location_data : option pystr) (user : KhojUser)
    (query_images : option (list pystr)) (agent : option Agent) (tracer : pyval)
    (send_status_func : option (pystr → list pyval)) (msg : pystr) (w : World) :
  (generate_python_code q conversation_history context location_data user
     query_images agent tracer (after_status send_status_func msg w)).1
  = (generate_python_code q conversation_history context location_data user
       query_images agent tracer w).1.
Proof.
  rewrite !generate_python_code_run. simpl.
  destruct (after_status_frame send_status_func msg w) as (_ & -> & -> & _). done.
Qed.

(** Synthesis asks the model and touches nothing else. *)
Lemma generate_frame (q : pystr) (conversation_history : pyval)
    (context : pystr) (location_data : option pystr) (user : KhojUser)
    (query_images : option (list pystr)) (agent : option Agent) (tracer : pyval)
    (w w' : World) (r : result (pystr * pyval * pyval)) :
  generate_python_code q conversation_history context location_data user
    query_images agent tracer w = (r, w') →
  file_store w' = file_store w ∧ db_lookups w' = db_lookups w
  ∧ http_posts w' = http_posts w ∧ status_events w' = status_events w
  ∧ List.length (model_calls w') = S (List.length (model_calls w)).
Proof.
  rewrite generate_python_code_run. simpl. intros [= _ <-]. simpl.
  rewrite length_app. simpl. repeat split; lia.
Qed.

(** C5: synthesis fails whenever the reply of the model is not valid
    JSON, or has no [code], or has a [code] that is not a string, or has a
    [code] that is empty or whitespace only: [generate_python_code]
    raises, and [run_code] ends with the generation failure that wraps
    what it raised. *)
Theorem refused_reply_fails_generation (query : pystr) (conversation_history : pyval)
    (context : pystr) (location_data : option pystr) (user : KhojUser)
    (send_status_func : option (pystr → list pyval))
    (query_images : option (list pystr)) (agent : option Agent)
    (sandbox_url : pystr) (tracer : pyval) (w : World) (reply : pystr) :
  model w (code_generation_request (utc_today w) query conversation_history context
             location_data user query_images agent tracer) = Ok reply →
  refused_reply reply →
  ∃ cause,
    (generate_python_code query conversation_history context location_data user
       query_images agent tracer w).1 = Raise cause
    ∧ outcome_of (run_code query conversation_history context location_data user
                    send_status_func query_images agent sandbox_url tracer w)
      = Failed (ValueError (py "Failed to generate code for " ++ query
                            ++ py " with error: " ++ str_exn cause)).
Proof.
  intros Hmodel Hreply. destruct (parse_reply_refuses reply Hreply) as [cause Hparse].
  assert ((generate_python_code query conversation_history context location_data
             user query_images agent tracer w).1 = Raise cause) as Hgen.
  { rewrite generate_python_code_run. simpl. rewrite Hmodel. simpl. by rewrite Hparse. }
  exists cause. split; [done |].
  pose proof (generate_after_status query conversation_history context location_data
                user query_images agent tracer send_status_func
                (py "**Generate code snippet** for " ++ query) w) as Hsame.
  rewrite Hgen in Hsame.
  destruct (generate_python_code _ _ _ _ _ _ _ _ (after_status _ _ w)) as [r w1] eqn:E.
  simpl in Hsame. subst r.
  unfold outcome_of. by rewrite (run_code_generation_raises _ _ _ _ _ _ _ _ _ _ _ _ _ E).
Qed.

(** When synthesis raises, [run_code] raises the generation failure and
    has looked up no file and posted nothing. *)
Lemma run_code_generation_failure (query : pystr) (conversation_history : pyval)
    (context : pystr) (location_data : option pystr) (user : KhojUser)
    (send_status_func : option (pystr → list pyval))
    (query_images : option (list pystr)) (agent : option Agent)
    (sandbox_url : pystr) (tracer : pyval) (w : World) (cause : exn) :
  (generate_python_code query conversation_history context location_data user
     query_images agent tracer w).1 = Raise cause →
  ∃ w',
    run_code query conversation_history context location_data user send_status_func
      query_images agent sandbox_url tracer w
    = (Raise (ValueError (py "Failed to generate code for " ++ query
                          ++ py " with error: " ++ str_exn cause)), w')
    ∧ db_lookups w' = db_lookups w
    ∧ http_posts w' = http_posts w
    ∧ file_store w' = file_store w.
Proof.
  intros Hgen.
  rewrite <- (generate_after_status _ _ _ _ _ _ _ _ send_status_func
                (py "**Generate code snippet** for " ++ query)) in Hgen.
  destruct (generate_python_code _ _ _ _ _ _ _ _ (after_status _ _ w)) as [r w1] eqn:E.
  simpl in Hgen. subst r. exists w1.
  split; [by apply run_code_generation_raises |].
  destruct (generate_frame _ _ _ _ _ _ _ _ _ _ _ E) as (-> & -> & -> & _).
  by destruct (after_status_frame send_status_func
                 (py "**Generate code snippet** for " ++ query) w)
    as (-> & _ & _ & _ & _ & -> & ->).
Qed.

(** C7: when synthesis raises, the pipeline ends Failed with a
    generation failure whose message holds the query and the cause, and
    neither resolution nor execution is attempted: no file is looked up
    and nothing is posted to the sandbox. *)
Theorem synthesis_failure_stops_pipeline (query : pystr) (conversation_history : pyval)
    (context : pystr) (location_data : option pystr) (user : KhojUser)
    (send_status_func : option (pystr → list pyval))
    (query_images : option (list pystr)) (agent : option Agent)
    (sandbox_url : pystr) (tracer : pyval) (w : World) (cause : exn) :
  (generate_python_code query conversation_history context location_data user
     query_images agent tracer w).1 = Raise cause →
  let run := run_code query conversation_history context location_data user
               send_status_func query_images agent sandbox_url tracer w in
  outcome_of run
  = Failed (ValueError (py "Failed to generate code for " ++ query
                        ++ py " with error: " ++ str_exn cause))
  ∧ db_lookups run.2 = db_lookups w
  ∧ http_posts run.2 = http_posts w.
Proof.
  intros Hgen.
  destruct (run_code_generation_failure query conversation_history context
              location_data user send_status_func query_images agent sandbox_url
              tracer w cause Hgen) as (w' & Hrun & Hdb & Hhttp & Hstore).
  simpl. unfold outcome_of. rewrite Hrun. done.
Qed.

(** C10: a [code] that is present in the reply and is not a string makes
    [generate_python_code] raise the [AttributeError] of the call of
    [strip], before the validation; the [isinstance] test of the
    validation only ever sees what [strip] returned, a string, so it
    never fails; and [run_code] wraps the [AttributeError] into a
    generation failure. *)
Theorem non_string_code_raises_in_strip (query : pystr) (conversation_history : pyval)
    (context : pystr) (location_data : option pystr) (user : KhojUser)
    (send_status_func : option (pystr → list pyval))
    (query_images : option (list pystr)) (agent : option Agent)
    (sandbox_url : pystr) (tracer : pyval) (w : World) (reply : pystr)
    (d : gmap pystr pyval) (v : pyval) :
  model w (code_generation_request (utc_today w) query conversation_history context
             location_data user query_images agent tracer) = Ok reply →
  json_loads (clean_json reply) = Ok (PyDict d) →
  d !! py "code" = Some v →
  isinstance_str v = false →
  let cause :=
    AttributeError (py "'" ++ type_name v ++ py "' object has no attribute 'strip'") in
  py_strip v = Raise cause
  ∧ (∀ v' code, py_strip v' = Ok code → isinstance_str code = true)
  ∧ (generate_python_code query conversation_history context location_data user
       query_images agent tracer w).1 = Raise cause
  ∧ outcome_of (run_code query conversation_history context location_data user
                  send_status_func query_images agent sandbox_url tracer w)
    = Failed (ValueError (py "Failed to generate code for " ++ query
                          ++ py " with error: '" ++ type_name v
                          ++ py "' object has no attribute 'strip'")).
Proof.
  intros Hmodel Hjson Hcode Hv cause.
  assert ((generate_python_code query conversation_history context location_data
             user query_images agent tracer w).1 = Raise cause) as Hgen.
  { rewrite generate_python_code_run. simpl. rewrite Hmodel. simpl.
    by rewrite (parse_reply_code_not_str reply d v). }
  split; [by apply py_strip_not_str |].
  split; [apply py_strip_returns_str |].
  split; [done |].
  destruct (run_code_generation_failure query conversation_history context
              location_data user send_status_func query_images agent sandbox_url
              tracer w cause Hgen) as [w' [Hrun _]].
  unfold outcome_of. rewrite Hrun. simpl. do 2 f_equal.
Qed.

(** ** Input resolution *)

(** Looking names up changes the record of lookups and nothing else. *)
Lemma after_lookups_frame (user : KhojUser) (names : list pyval) (w : World) :
  let w' := after_lookups user names w in
  file_store w' = file_store w ∧ model w' = model w ∧ sandbox w' = sandbox w
  ∧ model_calls w' = model_calls w ∧ http_posts w' = http_posts w
  ∧ status_events w' = status_events w
  ∧ db_lookups w' = db_lookups w ++ ((λ name, (user, name)) <$> names).
Proof.
  revert w. induction names as [|name names IH]; intros w; simpl.
  - by rewrite app_nil_r.
  - destruct (IH (log_db_lookup (user, name) w)) as (-> & -> & -> & -> & -> & -> & ->).
    simpl. by rewrite <- app_assoc.
Qed.

(** The first loop: the entries found for each name, in the order of the
    names. *)
Lemma for_each_lookups (user : KhojUser) (names : list pyval)
    (acc : list FileObject) (w : World) :
  for_each (async_get_file_objects_by_name user) names acc w
  = (Ok (acc ++ (names ≫= λ name, stored_entries user name (file_store w))),
     after_lookups user names w).
Proof.
  revert acc w. induction names as [|name names IH]; intros acc w; simpl.
  - by rewrite app_nil_r.
  - unfold mbind at 1, M_bind at 1, async_get_file_objects_by_name. run.
    rewrite IH. simpl. by rewrite <- app_assoc.
Qed.

(** The artifact of an entry whose content can be encoded. *)
Lemma input_artifact_encodable (f : FileObject) :
  encodable (raw_text f) → input_artifact f = Ok (artifact f).
Proof.
  intros Hf. unfold input_artifact. by rewrite (encode_utf8_encodable _ Hf).
Qed.

(** An entry whose content holds a surrogate has no artifact. *)
Lemma input_artifact_surrogate (f : FileObject) :
  ¬ encodable (raw_text f) → ∃ e, input_artifact f = Raise e.
Proof.
  intros Hf. unfold input_artifact, encode_utf8.
  destruct (encode_utf8_from_surrogate (raw_text f) (raw_text f) O Hf) as [e ->].
  by exists e.
Qed.

(** The second loop: one artifact for each entry, when the contents can
    be encoded. *)
Lemma map_result_artifacts (fs : list FileObject) :
  Forall (λ f, encodable (raw_text f)) fs →
  map_result input_artifact fs = Ok (artifact <$> fs).
Proof.
  induction 1 as [|f fs Hf _ IH]; [done |].
  cbn [map_result]. by rewrite IH, (input_artifact_encodable f Hf).
Qed.

(** The second loop stops at the first content that cannot be encoded. *)
Lemma map_result_surrogate (fs : list FileObject) :
  ¬ Forall (λ f, encodable (raw_text f)) fs →
  ∃ e, map_result input_artifact fs = Raise e.
Proof.
  induction fs as [|f fs IH]; intros Hfs.
  - destruct Hfs. constructor.
  - cbn [map_result].
    destruct (decide (encodable (raw_text f))) as [Hf|Hf].
    + rewrite (input_artifact_encodable f Hf).
      destruct IH as [e He]; [| exists e; by rewrite He].
      intros Hfs'. apply Hfs. by constructor.
    + destruct (input_artifact_surrogate f Hf) as [e ->]. by exists e.
Qed.

Lemma length_bind_sum {A B} (f : A → list B) (l : list A) :
  List.length (l ≫= f) = sum_list ((λ x, List.length (f x)) <$> l).
Proof.
  induction l as [|x l IH]; [done |].
  rewrite bind_cons, length_app, IH. done.
Qed.

(** C6: for every user and every list of requested names (the stored
    contents being text that has a UTF-8 encoding), resolution raises
    nothing and returns one artifact for each stored entry of the user
    that matches a requested name, name after name in the order
    requested; an artifact holds the basename of the entry's name and the
    base64 text of the UTF-8 bytes of its content; a name that matches no
    entry adds nothing; the file store is left as it was. *)
Theorem resolution_one_artifact_per_match (user : KhojUser) (names : list pystr)
    (w : World) :
  (∀ name f, name ∈ names → f ∈ matching user name (file_store w) →
             encodable (raw_text f)) →
  let run := prepare_input_data user (PyList (PyStr <$> names)) w in
  let found := names ≫= λ name, matching user name (file_store w) in
  run.1 = Ok (artifact <$> found)
  ∧ Forall2 (λ a f,
      a = PyDict (<[py "filename" := PyStr (basename (file_name f))]>
                   (<[py "b64_data" := PyStr (b64encode (utf8_bytes (raw_text f)))]> ∅)))
      (artifact <$> found) found
  ∧ List.length (artifact <$> found)
    = sum_list ((λ name, List.length (matching user name (file_store w))) <$> names)
  ∧ (∀ before name after,
       names = before ++ name :: after → matching user name (file_store w) = [] →
       found = (before ++ after) ≫= λ name, matching user name (file_store w))
  ∧ file_store run.2 = file_store w.
Proof.
  intros Henc run found.
  assert (Forall (λ f, encodable (raw_text f)) found) as Hfound.
  { apply Forall_forall. intros f Hf. unfold found in Hf.
    apply list_elem_of_bind in Hf as (name & Hf & Hname). by apply (Henc name). }
  assert (run = (Ok (artifact <$> found),
                 after_lookups user (PyStr <$> names) w)) as ->.
  { unfold run, prepare_input_data. run.
    rewrite for_each_lookups. simpl. rewrite list_fmap_bind.
    change (names ≫= _) with found.
    by rewrite (map_result_artifacts found Hfound). }
  simpl. split; [done |]. split.
  - apply Forall2_fmap_l, Forall_Forall2_diag, Forall_forall. done.
  - split; [| split].
    + rewrite length_fmap. apply length_bind_sum.
    + intros before name after -> Hnone. unfold found.
      by rewrite !bind_app, bind_cons, Hnone.
    + apply after_lookups_frame.
Qed.

(** Resolution looks files up and touches nothing else. *)
Lemma prepare_input_data_frame (user : KhojUser) (input_files : pyval)
    (w w' : World) (r : result (list pyval)) :
  prepare_input_data user input_files w = (r, w') →
  file_store w' = file_store w ∧ model w' = model w ∧ sandbox w' = sandbox w
  ∧ model_calls w' = model_calls w ∧ http_posts w' = http_posts w
  ∧ status_events w' = status_events w.
Proof.
  unfold prepare_input_data. run.
  destruct (py_iter input_files) as [names|e]; [| by intros [= _ <-]].
  rewrite for_each_lookups. simpl. intros [= _ <-].
  by destruct (after_lookups_frame user names w) as (-> & -> & -> & -> & -> & -> & _).
Qed.

(** ** Completion *)

(** What [pop] leaves of the made-up failure. *)
Lemma failed_to_execute_results (cleaned_code : pystr) (s : Z) :
  delete (py "code") (failed_to_execute cleaned_code s)
  = <[py "success" := PyBool false]>
      (<[py "std_err" := PyStr (py "Failed to execute code with " ++ str_int s)]> ∅).
Proof.
  unfold failed_to_execute. apply delete_insert_id.
  do 2 rewrite lookup_insert_ne by py_neq. apply lookup_empty.
Qed.

(** C8: once synthesis and resolution have returned, whatever result the
    sandbox client returns the pipeline ends Completed, with the final
    mapping of the query to the code that ran and the rest of the result;
    so it does for the result made up on a status other than 200, whose
    [success] is false; an exception out of the post to the sandbox ends
    the pipeline Failed, with a failure that holds the query and the
    exception. *)
Theorem sandbox_result_completes_pipeline (query : pystr) (conversation_history : pyval)
    (context : pystr) (location_data : option pystr) (user : KhojUser)
    (send_status_func : option (pystr → list pyval))
    (query_images : option (list pystr)) (agent : option Agent)
    (sandbox_url : pystr) (tracer : pyval) (w w1 w2 : World)
    (code : pystr) (input_files input_links : pyval) (input_data : list pyval) :
  generate_python_code query conversation_history context location_data user
    query_images agent tracer
    (after_status send_status_func (py "**Generate code snippet** for " ++ query) w)
  = (Ok (code, input_files, input_links), w1) →
  prepare_input_data user input_files w1 = (Ok input_data, w2) →
  let w3 := after_status send_status_func (py "**Running code snippet**") w2 in
  let run := run_code query conversation_history context location_data user
               send_status_func query_images agent sandbox_url tracer w in
  (∀ result w4,
     execute_sandboxed_python code input_data sandbox_url w3 = (Ok result, w4) →
     outcome_of run
     = Completed (final_mapping query (PyStr (clean_code_python code))
                    (delete (py "code") result)))
  ∧ (∀ response,
       sandbox w3 (sandbox_request code input_data sandbox_url) = Ok response →
       status response ≠ 200%Z →
       outcome_of run
       = Completed (final_mapping query (PyStr (clean_code_python code))
                      (<[py "success" := PyBool false]>
                        (<[py "std_err" :=
                             PyStr (py "Failed to execute code with "
                                    ++ str_int (status response))]> ∅))))
  ∧ (∀ e,
       sandbox w3 (sandbox_request code input_data sandbox_url) = Raise e →
       outcome_of run
       = Failed (ValueError (py "Failed to run code for " ++ query
                             ++ py " with error: " ++ str_exn e))).
Proof.
  intros Hgen Hprep w3 run.
  assert (∀ result w4,
            execute_sandboxed_python code input_data sandbox_url w3 = (Ok result, w4) →
            outcome_of run
            = Completed (final_mapping query (PyStr (clean_code_python code))
                           (delete (py "code") result))) as Hcompleted.
  { intros result w4 Hexec. unfold run, outcome_of.
    rewrite (run_code_stages _ _ _ _ _ _ _ _ _ _ _ _ _ _ _ _ _ Hgen Hprep).
    fold w3. rewrite Hexec.
    destruct (execute_returns_code _ _ _ _ _ _ Hexec) as [Hcode _].
    unfold dict_pop. by rewrite Hcode. }
  split; [done |]. split.
  - intros response Hpost Hstatus.
    rewrite (Hcompleted _ _ (execute_not_200 _ _ _ _ _ Hpost Hstatus)).
    by rewrite failed_to_execute_results.
  - intros e Hpost. unfold run, outcome_of.
    rewrite (run_code_stages _ _ _ _ _ _ _ _ _ _ _ _ _ _ _ _ _ Hgen Hprep).
    fold w3. by rewrite (execute_transport_error _ _ _ _ _ Hpost).
Qed.

(** Synthesis after the first status report, for a reply that parses. *)
Lemma generate_parsed (q : pystr) (conversation_history : pyval)
    (context : pystr) (location_data : option pystr) (user : KhojUser)
    (query_images : option (list pystr)) (agent : option Agent) (tracer : pyval)
    (send_status_func : option (pystr → list pyval)) (msg : pystr) (w : World)
    (reply : pystr) (parsed : pystr * pyval * pyval) :
  model w (code_generation_request (utc_today w) q conversation_history context
             location_data user query_images agent tracer) = Ok reply →
  parse_reply reply = Ok parsed →
  ∃ w1,
    generate_python_code q conversation_history context location_data user
      query_images agent tracer (after_status send_status_func msg w)
    = (Ok parsed, w1)
    ∧ file_store w1 = file_store w ∧ sandbox w1 = sandbox w.
Proof.
  intros Hmodel Hparse. eexists. rewrite generate_python_code_run. simpl.
  destruct (after_status_frame send_status_func msg w) as (Hs & -> & -> & Hb & _).
  rewrite Hmodel. simpl. rewrite Hparse. done.
Qed.

(** C2, as the code has it: in the run of the query "add two numbers"
    where the reply of the model decodes to [code] "print(1+1)" with no
    input files and no input links, the cleaning leaves that code as it
    is, and the sandbox answers status 200 with [success] true and
    [std_out] "2" and a newline, the pipeline ends Completed with the
    query mapped to [code] "print(1+1)" and to [results] that hold
    [success] and [std_out] only: [code] has been popped out of the
    [results]. *)
Theorem add_two_numbers_output (conversation_history : pyval)
    (context : pystr) (location_data : option pystr) (user : KhojUser)
    (send_status_func : option (pystr → list pyval))
    (query_images : option (list pystr)) (agent : option Agent)
    (sandbox_url : pystr) (tracer : pyval) (w : World) (reply : pystr) :
  model w (code_generation_request (utc_today w) add_two_numbers conversation_history
             context location_data user query_images agent tracer) = Ok reply →
  json_loads (clean_json reply)
  = Ok (PyDict (<[py "code" := PyStr (py "print(1+1)")]>
                 (<[py "input_files" := PyList []]>
                   (<[py "input_links" := PyList []]> ∅)))) →
  clean_code_python (py "print(1+1)") = py "print(1+1)" →
  (∀ request,
     sandbox w request
     = Ok {| status := 200%Z;
             json := Ok (PyDict (<[py "success" := PyBool true]>
                                  (<[py "std_out" := PyStr (py "2" ++ [0x0A])]> ∅))) |}) →
  outcome_of (run_code add_two_numbers conversation_history context location_data
                user send_status_func query_images agent sandbox_url tracer w)
  = Completed actual_output
  ∧ ∃ entry results,
      actual_output !! add_two_numbers = Some (PyDict entry)
      ∧ entry !! py "code" = Some (PyStr (py "print(1+1)"))
      ∧ entry !! py "results" = Some (PyDict results)
      ∧ dom results = {[ py "success"; py "std_out" ]}
      ∧ results !! py "code" = None.
Proof.
  intros Hmodel Hjson Hclean Hsandbox. split.
  - destruct (generate_parsed add_two_numbers conversation_history context
                location_data user query_images agent tracer send_status_func
                (py "**Generate code snippet** for " ++ add_two_numbers) w reply
                (py "print(1+1)", PyList [], PyList []) Hmodel)
      as (w1 & Hgen & _ & Hsb1).
    { unfold parse_reply. rewrite Hjson. reflexivity. }
    assert (prepare_input_data user (PyList []) w1 = (Ok [], w1)) as Hprep by done.
    unfold outcome_of.
    rewrite (run_code_stages _ _ _ _ _ _ _ _ _ _ _ _ _ _ _ _ _ Hgen Hprep).
    assert (sandbox (after_status send_status_func (py "**Running code snippet**") w1)
              (sandbox_request (py "print(1+1)") [] sandbox_url)
            = Ok {| status := 200%Z;
                    json := Ok (PyDict (<[py "success" := PyBool true]>
                                         (<[py "std_out" := PyStr (py "2" ++ [0x0A])]> ∅))) |})
      as Hpost.
    { destruct (after_status_frame send_status_func (py "**Running code snippet**") w1)
        as (_ & _ & _ & -> & _).
      rewrite Hsb1. apply Hsandbox. }
    rewrite (execute_200 _ _ _ _ _ _ Hpost eq_refl eq_refl).
    unfold dict_pop. rewrite lookup_insert_eq. simpl.
    rewrite Hclean, delete_insert_id; [done |].
    do 2 rewrite lookup_insert_ne by py_neq. apply lookup_empty.
  - eexists _, _. unfold actual_output, final_mapping.
    split; [apply lookup_insert_eq |].
    split; [apply lookup_insert_eq |].
    split; [rewrite lookup_insert_ne by py_neq; apply lookup_insert_eq |].
    split; [rewrite !dom_insert_L, dom_empty_L; set_solver |].
    do 2 rewrite lookup_insert_ne by py_neq. apply lookup_empty.
Qed.

End Properties.

(** * The properties on concrete runs *)

(** Close the goal with [t], whose statement evaluates to the goal. *)
Ltac instance_of t := match goal with |- ?G => exact (t <: G) end.

(** The numeric status is rendered in decimal. *)
Example str_int_500 : str_int 500 = py "500".
Proof. reflexivity. Qed.

(** The fragment decoder on the replies used below. *)
Example loads_reply_print :
  Json.loads reply_print
  = Ok (PyDict (<[py "code" := PyStr (py "print(1+1)")]>
                 (<[py "input_files" := PyList []]>
                   (<[py "input_links" := PyList []]> ∅)))).
Proof. vm_compute. reflexivity. Qed.

Example loads_reply_with_files :
  Json.loads reply_with_files
  = Ok (PyDict (<[py "code" := PyStr (py "  import csv ")]>
                 (<[py "input_files" :=
                      PyList [PyStr (py "notes/data.csv"); PyStr (py "missing.txt")]]> ∅))).
Proof. vm_compute. reflexivity. Qed.

(** A body that echoes another [code]: the result has the code sent. *)
Lemma execute_200_code_is_sent_code_witness :
  let w := fresh_world [] (Ok reply_print) sandbox_echo in
  let code := fence ++ py "python" ++ [0x0A] ++ py "print(1+1)" ++ [0x0A] ++ fence in
  clean_code_python (Collaborators := reference) code = [0x0A] ++ py "print(1+1)" ++ [0x0A]
  ∧ ∃ result w' sent,
      execute_sandboxed_python (C := reference) code [] localhost w = (Ok result, w')
      ∧ result !! py "code" = Some (PyStr (clean_code_python (Collaborators := reference) code))
      ∧ (∀ k, k ≠ py "code" →
           result !! k
           = (<[py "code" := PyStr (py "something else")]>
               (<[py "success" := PyBool true]> ∅) : gmap pystr pyval) !! k)
      ∧ http_posts w' = http_posts w ++ [sandbox_request (C := reference) code [] localhost]
      ∧ rq_json (sandbox_request (C := reference) code [] localhost) = PyDict sent
      ∧ sent !! py "code" = Some (PyStr (clean_code_python (Collaborators := reference) code)).
Proof.
  intros w code. split; [reflexivity |].
  apply (execute_200_code_is_sent_code (C := reference) code [] localhost w
           {| status := 200%Z;
              json := Ok (PyDict (<[py "code" := PyStr (py "something else")]>
                                   (<[py "success" := PyBool true]> ∅))) |});
    reflexivity.
Defined.

(** Status 500: the failure is made up, nothing is raised. *)
Lemma execute_non_success_status_witness :
  let w := fresh_world [] (Ok reply_print) (sandbox_status 500) in
  ¬ (200 ≤ 500 < 300)%Z
  ∧ ∃ result w',
      execute_sandboxed_python (C := reference) (py "print(1+1)") [] localhost w
      = (Ok result, w')
      ∧ result !! py "success" = Some (PyBool false)
      ∧ result !! py "std_err" = Some (PyStr (py "Failed to execute code with 500"))
      ∧ result !! py "code" = Some (PyStr (py "print(1+1)")).
Proof.
  intros w. split; [lia |].
  apply (execute_non_success_status (C := reference) (py "print(1+1)") [] localhost w
           {| status := 500%Z; json := Ok (PyDict ∅) |}); [reflexivity | simpl; lia].
Defined.

(** Status 204 with a body that is not JSON: the body is not read. *)
Lemma execute_only_200_is_success_witness :
  let body := Raise (OtherError "ContentTypeError" (py "unexpected mimetype")) in
  let w := fresh_world [] (Ok reply_print) (λ _, Ok {| status := 204%Z; json := body |}) in
  204%Z ≠ 200%Z
  ∧ (execute_sandboxed_python (C := reference) (py "print(1+1)") [] localhost w).1
    = Ok (<[py "code" := PyStr (py "print(1+1)")]>
           (<[py "success" := PyBool false]>
             (<[py "std_err" := PyStr (py "Failed to execute code with 204")]> ∅))).
Proof.
  intros body w. split; [lia |].
  apply (execute_only_200_is_success (C := reference) (py "print(1+1)") [] localhost w
           204%Z body); [reflexivity | lia].
Defined.

(** A reply whose [code] has spaces around it and that has no
    [input_links]: the code comes back trimmed, the links empty. *)
Lemma generate_returns_trimmed_code_witness :
  let w := fresh_world [] (Ok reply_with_files) sandbox_says_2 in
  strip (py "  import csv ") ≠ []
  ∧ (generate_python_code (C := reference) (py "read my csv") (PyDict ∅) [] None alice
       None None (PyDict ∅) w).1
    = Ok (py "import csv",
          PyList [PyStr (py "notes/data.csv"); PyStr (py "missing.txt")],
          PyList []).
Proof.
  intros w.
  assert (strip (py "  import csv ") ≠ []) as Hs by (by vm_compute).
  split; [exact Hs |].
  assert (Json.loads (strip reply_with_files)
          = Ok (PyDict (<[py "code" := PyStr (py "  import csv ")]>
                         (<[py "input_files" :=
                              PyList [PyStr (py "notes/data.csv"); PyStr (py "missing.txt")]]>
                            ∅)))) as Hjson by (vm_compute; reflexivity).
  instance_of (generate_returns_trimmed_code (C := reference) (py "read my csv")
                 (PyDict ∅) [] None alice None None (PyDict ∅) w reply_with_files
                 _ (py "  import csv ") eq_refl Hjson eq_refl Hs).
Defined.

(** The four kinds of refused reply, each ending in a generation failure. *)
Lemma refused_reply_fails_generation_witness :
  Forall (λ reply,
    refused_reply (C := reference) reply
    ∧ ∃ cause,
        (generate_python_code (C := reference) add_two_numbers (PyDict ∅) [] None alice
           None None (PyDict ∅) (fresh_world [] (Ok reply) sandbox_says_2)).1
        = Raise cause
        ∧ outcome_of (run_query (H := reference) add_two_numbers alice
                        (fresh_world [] (Ok reply) sandbox_says_2))
          = Failed (ValueError (py "Failed to generate code for add two numbers with error: "
                                ++ str_exn cause)))
    [reply_prose; reply_without_code_key; reply_code_42; reply_code_spaces].
Proof.
  assert (refused_reply (C := reference) reply_prose) as H1.
  { eapply reply_not_json. vm_compute. reflexivity. }
  assert (refused_reply (C := reference) reply_without_code_key) as H2.
  { apply (reply_without_code (C := reference) _ (<[py "input_files" := PyList []]> ∅));
      vm_compute; reflexivity. }
  assert (refused_reply (C := reference) reply_code_42) as H3.
  { apply (reply_code_not_str (C := reference) _ (<[py "code" := PyInt 42]> ∅) (PyInt 42));
      vm_compute; reflexivity. }
  assert (refused_reply (C := reference) reply_code_spaces) as H4.
  { apply (reply_code_blank (C := reference) _
             (<[py "code" := PyStr (py "   ")]> ∅) (py "   "));
      [vm_compute; reflexivity | vm_compute; reflexivity | by repeat constructor]. }
  constructor; [split; [exact H1 |] |].
  { instance_of (refused_reply_fails_generation (C := reference) add_two_numbers
                   (PyDict ∅) [] None alice None None None localhost (PyDict ∅)
                   (fresh_world [] (Ok reply_prose) sandbox_says_2) _ eq_refl H1). }
  constructor; [split; [exact H2 |] |].
  { instance_of (refused_reply_fails_generation (C := reference) add_two_numbers
                   (PyDict ∅) [] None alice None None None localhost (PyDict ∅)
                   (fresh_world [] (Ok reply_without_code_key) sandbox_says_2) _ eq_refl H2). }
  constructor; [split; [exact H3 |] |].
  { instance_of (refused_reply_fails_generation (C := reference) add_two_numbers
                   (PyDict ∅) [] None alice None None None localhost (PyDict ∅)
                   (fresh_world [] (Ok reply_code_42) sandbox_says_2) _ eq_refl H3). }
  constructor; [split; [exact H4 |] | constructor].
  instance_of (refused_reply_fails_generation (C := reference) add_two_numbers
                 (PyDict ∅) [] None alice None None None localhost (PyDict ∅)
                 (fresh_world [] (Ok reply_code_spaces) sandbox_says_2) _ eq_refl H4).
Defined.

(** Two names asked of the store [some_files]: the first matches the two
    files of [alice], the second matches none. *)
Lemma resolution_one_artifact_per_match_witness :
  let w := fresh_world some_files (Ok reply_with_files) sandbox_says_2 in
  let names := [py "notes/data.csv"; py "missing.txt"] in
  let run := prepare_input_data alice (PyList (PyStr <$> names)) w in
  (∀ name f, name ∈ names → f ∈ matching alice name (file_store w) →
             encodable (raw_text f))
  ∧ run.1
    = Ok [PyDict (<[py "filename" := PyStr (py "data.csv")]>
                   (<[py "b64_data" := PyStr (py "YSxi")]> ∅));
          PyDict (<[py "filename" := PyStr (py "data.csv")]>
                   (<[py "b64_data" := PyStr (py "MSwy")]> ∅))]
  ∧ matching alice (py "missing.txt") (file_store w) = []
  ∧ file_store run.2 = some_files.
Proof.
  intros w names run.
  assert (∀ name f, name ∈ names → f ∈ matching alice name (file_store w) →
                    encodable (raw_text f)) as Henc.
  { intros name f _ Hf. apply list_elem_of_filter in Hf as [_ Hf].
    revert f Hf. apply Forall_forall. vm_compute. repeat constructor. }
  split; [exact Henc |].
  destruct (resolution_one_artifact_per_match alice names w Henc)
    as (Hrun & _ & _ & _ & Hstore).
  split; [instance_of Hrun |].
  split; [reflexivity | exact Hstore].
Defined.

(** A reply without [code]: a generation failure, no lookup, no post. *)
Lemma synthesis_failure_stops_pipeline_witness :
  let w := fresh_world some_files (Ok reply_without_code_key) sandbox_says_2 in
  let run := run_query (H := reference) add_two_numbers alice w in
  (generate_python_code (C := reference) add_two_numbers (PyDict ∅) [] None alice
     None None (PyDict ∅) w).1 = Raise (ValueError [])
  ∧ outcome_of run
    = Failed (ValueError (py "Failed to generate code for add two numbers with error: "))
  ∧ db_lookups run.2 = []
  ∧ http_posts run.2 = [].
Proof.
  intros w run.
  assert ((generate_python_code (C := reference) add_two_numbers (PyDict ∅) [] None alice
             None None (PyDict ∅) w).1 = Raise (ValueError [])) as Hgen
    by (vm_compute; reflexivity).
  split; [exact Hgen |].
  instance_of (synthesis_failure_stops_pipeline (C := reference) add_two_numbers
                 (PyDict ∅) [] None alice None None None localhost (PyDict ∅) w
                 (ValueError []) Hgen).
Defined.

(** A reply whose [code] is the number 42: the [AttributeError] of
    [strip], wrapped. *)
Lemma non_string_code_raises_in_strip_witness :
  let w := fresh_world [] (Ok reply_code_42) sandbox_says_2 in
  isinstance_str (PyInt 42) = false
  ∧ (generate_python_code (C := reference) add_two_numbers (PyDict ∅) [] None alice
       None None (PyDict ∅) w).1
    = Raise (AttributeError (py "'int' object has no attribute 'strip'"))
  ∧ outcome_of (run_query (H := reference) add_two_numbers alice w)
    = Failed (ValueError (py "Failed to generate code for add two numbers with error: 'int' object has no attribute 'strip'")).
Proof.
  intros w. split; [reflexivity |].
  assert (Json.loads (strip reply_code_42) = Ok (PyDict (<[py "code" := PyInt 42]> ∅)))
    as Hjson by (vm_compute; reflexivity).
  destruct (non_string_code_raises_in_strip (C := reference) add_two_numbers (PyDict ∅) []
              None alice None None None localhost (PyDict ∅) w reply_code_42
              _ (PyInt 42) eq_refl Hjson eq_refl eq_refl) as (_ & _ & Hgen & Hrun).
  split; [exact Hgen | instance_of Hrun].
Defined.

(** The sandbox answers status 500: the run is Completed, with the
    made-up failure as [results].  The sandbox cannot be reached: the run
    is Failed. *)
Lemma sandbox_result_completes_pipeline_witness :
  let generated w :=
    generate_python_code (C := reference) add_two_numbers (PyDict ∅) [] None alice
      None None (PyDict ∅) w in
  let w500 := fresh_world [] (Ok reply_print) (sandbox_status 500) in
  let wdown := fresh_world [] (Ok reply_print) sandbox_down in
  (generated w500).1 = Ok (py "print(1+1)", PyList [], PyList [])
  ∧ (prepare_input_data alice (PyList []) (generated w500).2).1 = Ok []
  ∧ outcome_of (run_query (H := reference) add_two_numbers alice w500)
    = Completed (final_mapping add_two_numbers (PyStr (py "print(1+1)"))
                   (<[py "success" := PyBool false]>
                     (<[py "std_err" := PyStr (py "Failed to execute code with 500")]> ∅)))
  ∧ outcome_of (run_query (H := reference) add_two_numbers alice wdown)
    = Failed (ValueError (py "Failed to run code for add two numbers with error: Cannot connect to host")).
Proof.
  intros generated w500 wdown.
  assert (∀ w, model w = (λ _, Ok reply_print) → utc_today w = py "2024-11-01" →
               generated w
               = (Ok (py "print(1+1)", PyList [], PyList []), (generated w).2)) as Hgen.
  { intros w Hmodel Htoday. unfold generated. rewrite generate_python_code_run.
    simpl. rewrite Hmodel. reflexivity. }
  split; [by rewrite (Hgen w500) |]. split; [reflexivity |].
  destruct (sandbox_result_completes_pipeline (C := reference) add_two_numbers (PyDict ∅)
              [] None alice None None None localhost (PyDict ∅) w500
              (generated w500).2 (generated w500).2 (py "print(1+1)") (PyList [])
              (PyList []) [] (Hgen w500 eq_refl eq_refl) eq_refl) as (_ & H500 & _).
  destruct (sandbox_result_completes_pipeline (C := reference) add_two_numbers (PyDict ∅)
              [] None alice None None None localhost (PyDict ∅) wdown
              (generated wdown).2 (generated wdown).2 (py "print(1+1)") (PyList [])
              (PyList []) [] (Hgen wdown eq_refl eq_refl) eq_refl) as (_ & _ & Hdown).
  split.
  - instance_of (H500 {| status := 500%Z; json := Ok (PyDict ∅) |} eq_refl
                   ltac:(simpl; lia)).
  - instance_of (Hdown (OtherError "ClientConnectorError" (py "Cannot connect to host"))
                   eq_refl).
Defined.

(** The run of the spec's example, with the collaborators [reference]. *)
Lemma add_two_numbers_output_witness :
  let w := fresh_world [] (Ok reply_print) sandbox_says_2 in
  json_loads (Collaborators := reference) (clean_json (Collaborators := reference) reply_print)
  = Ok (PyDict (<[py "code" := PyStr (py "print(1+1)")]>
                 (<[py "input_files" := PyList []]>
                   (<[py "input_links" := PyList []]> ∅))))
  ∧ clean_code_python (Collaborators := reference) (py "print(1+1)") = py "print(1+1)"
  ∧ outcome_of (run_query (H := reference) add_two_numbers alice w)
    = Completed actual_output.
Proof.
  intros w.
  assert (Json.loads (strip reply_print)
          = Ok (PyDict (<[py "code" := PyStr (py "print(1+1)")]>
                         (<[py "input_files" := PyList []]>
                           (<[py "input_links" := PyList []]> ∅))))) as Hjson
    by (vm_compute; reflexivity).
  assert (∀ request,
            sandbox w request
            = Ok {| status := 200%Z;
                    json := Ok (PyDict (<[py "success" := PyBool true]>
                                         (<[py "std_out" := PyStr (py "2" ++ [0x0A])]> ∅))) |})
    as Hsandbox by (intros request; vm_compute; reflexivity).
  split; [exact Hjson |]. split; [reflexivity |].
  exact (proj1 (add_two_numbers_output (C := reference) (PyDict ∅) [] None alice None
                  None None localhost (PyDict ∅) w reply_print eq_refl Hjson eq_refl
                  Hsandbox)).
Defined.

(** C2 as stated fails: the run of the example does not end with the
    output the spec states, whose [results] hold [code]; the [results] of
    the run hold no [code]. *)
Lemma add_two_numbers_output_not_as_stated :
  outcome_of (run_query (H := reference) add_two_numbers alice
                (fresh_world [] (Ok reply_print) sandbox_says_2))
  ≠ Completed stated_output.
Proof.
  intros H. apply (f_equal (results_code add_two_numbers)) in H.
  vm_compute in H. discriminate H.
Qed.

(** * Further properties of the pipeline *)

(** ** Where a run can end *)

Section Traces.
Context {C : Collaborators}.

(** Resolution, step by step: the names are walked, each is looked up,
    then each entry found is encoded. *)
Lemma prepare_input_data_run (user : KhojUser) (input_files : pyval) (w : World) :
  prepare_input_data user input_files w
  = match py_iter input_files with
    | Raise e => (Raise e, w)
    | Ok names =>
        (map_result input_artifact
           (names ≫= λ name, stored_entries user name (file_store w)),
         after_lookups user names w)
    end.
Proof.
  unfold prepare_input_data. run.
  destruct (py_iter input_files) as [names|e]; [| done].
  by rewrite for_each_lookups.
Qed.

(** The sandbox client, step by step: one post, then the status decides. *)
Lemma execute_sandboxed_python_run (code : pystr) (input_data : list pyval)
    (sandbox_url : pystr) (w : World) :
  execute_sandboxed_python code input_data sandbox_url w
  = (response ← sandbox w (sandbox_request code input_data sandbox_url);
     (if bool_decide (status response = 200%Z)
      then result ← json response;
           py_setitem result (py "code") (PyStr (clean_code_python code))
      else Ok (failed_to_execute (clean_code_python code) (status response))),
     log_http_post (sandbox_request code input_data sandbox_url) w).
Proof.
  unfold execute_sandboxed_python. run.
  destruct (sandbox w _) as [response|e]; simpl; [| done].
  case_bool_decide; run; [| done].
  by destruct (json response) as [v|e]; simpl; [destruct (py_setitem _ _ _) |].
Qed.


(** The only exception of the encoder: a surrogate, at a position of the
    text. *)
Lemma encode_utf8_from_raises (whole s : pystr) (i : nat) (e : exn) :
  encode_utf8_from whole i s = Raise e →
  ∃ k, (k < List.length s)%nat
       ∧ (∃ c, s !! k = Some c ∧ is_surrogate c = true)
       ∧ e = UnicodeEncodeError (py "utf-8") whole (i + k)%nat
               (i + k + surrogate_run (drop k s))%nat (py "surrogates not allowed").
Proof.
  revert i. induction s as [|c s IH]; intros i; simpl; [done |].
  destruct (is_surrogate c) eqn:Hc.
  - intros [= <-]. exists O. rewrite Nat.add_0_r. simpl. rewrite Hc.
    split; [lia | split; [by exists c | done]].
  - destruct (encode_utf8_from whole (S i) s) as [bs|e'] eqn:E; simpl; [done |].
    intros [= ->]. destruct (IH (S i) E) as (k & Hk & Hs & ->).
    exists (S k). split; [lia | split; [done |]].
    simpl. by replace (i + S k)%nat with (S i + k)%nat by lia.
Qed.

(** The only exception of the second loop of resolution. *)
Lemma map_result_raises (fs : list FileObject) (e : exn) :
  map_result input_artifact fs = Raise e →
  ∃ f start stop,
    f ∈ fs ∧ ¬ encodable (raw_text f)
    ∧ e = UnicodeEncodeError (py "utf-8") (raw_text f) start stop
            (py "surrogates not allowed").
Proof.
  induction fs as [|f fs IH]; [done |]. cbn [map_result].
  destruct (input_artifact f) as [a|e'] eqn:Ef; simpl.
  - destruct (map_result input_artifact fs) as [as'|e'] eqn:Efs; simpl; [done |].
    intros [= ->]. destruct (IH eq_refl) as (f' & start & stop & Hf' & Hn & ->).
    exists f', start, stop. split; [by apply list_elem_of_further | done].
  - intros [= ->]. unfold input_artifact, encode_utf8 in Ef.
    destruct (encode_utf8_from (raw_text f) 0 (raw_text f)) as [bs|e'] eqn:E;
      simpl in Ef; [done |]. injection Ef as ->.
    destruct (encode_utf8_from_raises _ _ _ _ E) as (k & _ & (c & Hc & Hs) & ->).
    exists f, (0 + k)%nat, (0 + k + surrogate_run (drop k (raw_text f)))%nat.
    split; [apply list_elem_of_here |]. split; [| done].
    intros Henc. unfold encodable in Henc. rewrite Forall_lookup in Henc.
    specialize (Henc k c Hc). simpl in Henc. congruence.
Qed.

(** What the client returns, when it returns, has [code] set. *)
Lemma sandbox_result_has_code (code : pystr) (response : HttpResponse)
    (result : gmap pystr pyval) :
  (if bool_decide (status response = 200%Z)
   then v ← json response;
        py_setitem v (py "code") (PyStr (clean_code_python code))
   else Ok (failed_to_execute (clean_code_python code) (status response)))
  = Ok result →
  result !! py "code" = Some (PyStr (clean_code_python code)).
Proof.
  case_bool_decide.
  - destruct (json response) as [[| | | | | |d]|e]; simpl; try done.
    intros [= <-]. apply lookup_insert_eq.
  - intros [= <-]. apply failed_to_execute_fields.
Qed.

(** Every run of [run_code] takes one of five ways: synthesis raises;
    the input files cannot be walked; a content cannot be encoded; the
    execution block raises; the final mapping is yielded.  Each way fixes
    the outcome and the world the run leaves. *)
Lemma run_code_trace (query : pystr) (conversation_history : pyval)
    (context : pystr) (location_data : option pystr) (user : KhojUser)
    (send_status_func : option (pystr → list pyval))
    (query_images : option (list pystr)) (agent : option Agent)
    (sandbox_url : pystr) (tracer : pyval) (w : World) :
  let asked := code_generation_request (utc_today w) query conversation_history
                 context location_data user query_images agent tracer in
  let w1 := log_model_call asked
              (after_status send_status_func (generating_status query) w) in
  let run := run_code query conversation_history context location_data user
               send_status_func query_images agent sandbox_url tracer w in
  (∃ cause,
     (reply ← model w asked; parse_reply reply) = Raise cause
     ∧ run = (Raise (generation_error query cause), w1))
  ∨ (∃ code input_files input_links,
       (reply ← model w asked; parse_reply reply) = Ok (code, input_files, input_links)
       ∧ ((∃ e, py_iter input_files = Raise e ∧ run = (Raise e, w1))
          ∨ (∃ names,
               py_iter input_files = Ok names
               ∧ ((∃ e,
                     map_result input_artifact
                       (names ≫= λ name, stored_entries user name (file_store w))
                     = Raise e
                     ∧ run = (Raise e, after_lookups user names w1))
                  ∨ (∃ input_data,
                       map_result input_artifact
                         (names ≫= λ name, stored_entries user name (file_store w))
                       = Ok input_data
                       ∧ run
                         = (match
                              response ← sandbox w (sandbox_request code input_data sandbox_url);
                              (if bool_decide (status response = 200%Z)
                               then v ← json response;
                                    py_setitem v (py "code")
                                      (PyStr (clean_code_python code))
                               else Ok (failed_to_execute (clean_code_python code)
                                          (status response)))
                            with
                            | Ok result =>
                                Ok (final_mapping query (PyStr (clean_code_python code))
                                      (delete (py "code") result))
                            | Raise cause => Raise (execution_error query cause)
                            end,
                            log_http_post (sandbox_request code input_data sandbox_url)
                              (after_status send_status_func running_status
                                 (after_lookups user names w1)))))))).
Proof.
  intros asked w1 run.
  pose proof (generate_python_code_run query conversation_history context location_data
                user query_images agent tracer
                (after_status send_status_func (generating_status query) w)) as Hgen.
  simpl in Hgen.
  destruct (after_status_frame send_status_func (generating_status query) w)
    as (Hstore0 & Htoday & Hmodel & Hsandbox0 & _).
  rewrite Htoday, Hmodel in Hgen. fold asked in Hgen. fold w1 in Hgen.
  destruct (reply ← model w asked; parse_reply reply)
    as [[[code input_files] input_links]|cause] eqn:Hparsed.
  - right. exists code, input_files, input_links. split; [done |].
    pose proof (prepare_input_data_run user input_files w1) as Hprep.
    destruct (py_iter input_files) as [names|e] eqn:Hiter.
    + right. exists names. split; [done |].
      assert (file_store w1 = file_store w) as Hstore1 by (by unfold w1).
      rewrite Hstore1 in Hprep.
      destruct (map_result input_artifact _) as [input_data|e] eqn:Hmap.
      * right. exists input_data. split; [done |].
        unfold run. rewrite (run_code_stages _ _ _ _ _ _ _ _ _ _ _ _ _ _ _ _ _ Hgen Hprep).
        rewrite execute_sandboxed_python_run. fold running_status.
        assert (sandbox (after_status send_status_func running_status
                           (after_lookups user names w1)) = sandbox w) as ->.
        { destruct (after_status_frame send_status_func running_status
                      (after_lookups user names w1)) as (_ & _ & _ & -> & _).
          destruct (after_lookups_frame user names w1) as (_ & _ & -> & _).
          by unfold w1. }
        destruct (sandbox w _) as [response|cause]; simpl; [| done].
        destruct (if bool_decide (status response = 200%Z) then _ else _)
          as [result|cause] eqn:Hresult; [| done].
        unfold dict_pop. by rewrite (sandbox_result_has_code _ _ _ Hresult).
      * left. exists e. split; [done |].
        unfold run. by apply (run_code_resolution_raises _ _ _ _ _ _ _ _ _ _ _ _ _ _ _ _ _ Hgen).
    + left. exists e. split; [done |].
      unfold run. by apply (run_code_resolution_raises _ _ _ _ _ _ _ _ _ _ _ _ _ _ _ _ _ Hgen).
  - left. exists cause. split; [done |].
    unfold run. by apply run_code_generation_raises.
Qed.

(** The status events a report adds. *)
Lemma after_status_events (send_status_func : option (pystr → list pyval))
    (msg : pystr) (w : World) :
  status_events (after_status send_status_func msg w)
  = status_events w ++ from_option (λ report, report msg) [] send_status_func.
Proof.
  unfold after_status. destruct send_status_func; simpl; [done |].
  by rewrite app_nil_r.
Qed.

(** The world after the first report and the call of the model. *)
Lemma asked_world (send_status_func : option (pystr → list pyval)) (msg : pystr)
    (asked : ModelRequest) (w : World) :
  let w1 := log_model_call asked (after_status send_status_func msg w) in
  file_store w1 = file_store w ∧ model_calls w1 = model_calls w ++ [asked]
  ∧ db_lookups w1 = db_lookups w ∧ http_posts w1 = http_posts w
  ∧ status_events w1
    = status_events w ++ from_option (λ report, report msg) [] send_status_func.
Proof.
  simpl. rewrite after_status_events.
  by destruct (after_status_frame send_status_func msg w)
    as (-> & _ & _ & _ & -> & -> & ->).
Qed.


(** The world after the lookups, when the run ended there. *)
Lemma looked_up_world (send_status_func : option (pystr → list pyval)) (msg : pystr)
    (asked : ModelRequest) (user : KhojUser) (names : list pyval) (w : World) :
  let w2 := after_lookups user names
              (log_model_call asked (after_status send_status_func msg w)) in
  file_store w2 = file_store w ∧ model_calls w2 = model_calls w ++ [asked]
  ∧ db_lookups w2 = db_lookups w ++ ((λ name, (user, name)) <$> names)
  ∧ http_posts w2 = http_posts w
  ∧ status_events w2
    = status_events w ++ from_option (λ report, report msg) [] send_status_func.
Proof.
  simpl.
  destruct (after_lookups_frame user names
              (log_model_call asked (after_status send_status_func msg w)))
    as (-> & _ & _ & -> & -> & -> & ->).
  by destruct (asked_world send_status_func msg asked w) as (-> & -> & -> & -> & ->).
Qed.





(** ** Synthesis, the other way round *)

Lemma lstrip_no_space (s : pystr) :
  (∀ c, head s = Some c → py_isspace c = false) → lstrip s = s.
Proof.
  destruct s as [|c s]; [done |]. intros H. simpl. by rewrite (H c).
Qed.

(** Trimming twice is trimming once. *)
Lemma strip_idemp (s : pystr) : strip (strip s) = strip s.
Proof.
  unfold strip at 1, rstrip.
  rewrite (lstrip_no_space (strip s)) by (intros c; apply strip_ends).
  rewrite lstrip_no_space; [apply reverse_involutive |].
  intros c Hc. apply (strip_ends s c). by rewrite <- head_reverse.
Qed.

(** A reply is parsed only when it decodes to an object whose [code] is
    a string that is not blank. *)
Lemma parse_reply_ok_inv (reply code : pystr) (input_files input_links : pyval) :
  parse_reply reply = Ok (code, input_files, input_links) →
  ∃ d s,
    json_loads (clean_json reply) = Ok (PyDict d)
    ∧ d !! py "code" = Some (PyStr s)
    ∧ code = strip s ∧ code ≠ []
    ∧ input_files = from_option id (PyList []) (d !! py "input_files")
    ∧ input_links = from_option id (PyList []) (d !! py "input_links").
Proof.
  unfold parse_reply.
  destruct (json_loads (clean_json reply)) as [[| | | | | |d]|e]; simpl; try done.
  destruct (d !! py "code") as [[| | | | s| |]|] eqn:Hcode; simpl; try done.
  case_bool_decide as Hs; [done |]. intros [= <- <- <-].
  by exists d, s.
Qed.

(** When [generate_python_code] returns, the code it returns is not
    empty and is trimmed (trimming it again changes nothing, and it
    neither starts nor ends with whitespace); and the reply of the model
    decoded to an object whose [code] was a string, of which the returned
    code is the trimmed form, with the reply's [input_files] and
    [input_links] or the empty list in their place. *)
Theorem generated_code_is_trimmed (q : pystr) (conversation_history : pyval)
    (context : pystr) (location_data : option pystr) (user : KhojUser)
    (query_images : option (list pystr)) (agent : option Agent) (tracer : pyval)
    (w : World) (code : pystr) (input_files input_links : pyval) :
  (generate_python_code q conversation_history context location_data user
     query_images agent tracer w).1 = Ok (code, input_files, input_links) →
  code ≠ [] ∧ strip code = code
  ∧ (∀ c, head code = Some c ∨ last code = Some c → py_isspace c = false)
  ∧ ∃ reply d s,
      model w (code_generation_request (utc_today w) q conversation_history context
                 location_data user query_images agent tracer) = Ok reply
      ∧ json_loads (clean_json reply) = Ok (PyDict d)
      ∧ d !! py "code" = Some (PyStr s)
      ∧ code = strip s
      ∧ input_files = from_option id (PyList []) (d !! py "input_files")
      ∧ input_links = from_option id (PyList []) (d !! py "input_links").
Proof.
  rewrite generate_python_code_run. simpl.
  destruct (model w _) as [reply|e] eqn:Hmodel; simpl; [| done].
  intros Hparse.
  destruct (parse_reply_ok_inv _ _ _ _ Hparse) as (d & s & Hjson & Hcode & -> & Hne & -> & ->).
  split; [done |]. split; [exact (strip_idemp s) |]. split.
  - intros c Hc. destruct (strip_ends s c) as [Hhead Hlast]. destruct Hc; auto.
  - by exists reply, d, s.
Qed.

(** A reply that decodes to a JSON value that is not an object is
    refused: [generate_python_code] raises the [AttributeError] of the
    call of [get], and [run_code] raises the generation error that wraps
    it. *)
Theorem reply_not_object_raises_in_get (query : pystr) (conversation_history : pyval)
    (context : pystr) (location_data : option pystr) (user : KhojUser)
    (send_status_func : option (pystr → list pyval))
    (query_images : option (list pystr)) (agent : option Agent)
    (sandbox_url : pystr) (tracer : pyval) (w : World) (reply : pystr) (v : pyval) :
  model w (code_generation_request (utc_today w) query conversation_history context
             location_data user query_images agent tracer) = Ok reply →
  json_loads (clean_json reply) = Ok v →
  (∀ d, v ≠ PyDict d) →
  let cause :=
    AttributeError (py "'" ++ type_name v ++ py "' object has no attribute 'get'") in
  (generate_python_code query conversation_history context location_data user
     query_images agent tracer w).1 = Raise cause
  ∧ outcome_of (run_code query conversation_history context location_data user
                  send_status_func query_images agent sandbox_url tracer w)
    = Failed (ValueError (py "Failed to generate code for " ++ query
                          ++ py " with error: '" ++ type_name v
                          ++ py "' object has no attribute 'get'")).
Proof.
  intros Hmodel Hjson Hv cause.
  assert ((generate_python_code query conversation_history context location_data
             user query_images agent tracer w).1 = Raise cause) as Hgen.
  { rewrite generate_python_code_run. simpl. rewrite Hmodel. simpl.
    unfold parse_reply. rewrite Hjson. simpl.
    destruct v; try done. by destruct (Hv d). }
  split; [done |].
  destruct (run_code_generation_failure query conversation_history context
              location_data user send_status_func query_images agent sandbox_url
              tracer w cause Hgen) as [w' [Hrun _]].
  unfold outcome_of. rewrite Hrun. simpl. do 2 f_equal.
Qed.

(** When [code] is missing from the reply, or is blank, the generation
    error names no cause: the exception raised by the validation has no
    message, and the message of the error ends after "with error: ". *)
Theorem missing_code_error_names_no_cause (query : pystr) (conversation_history : pyval)
    (context : pystr) (location_data : option pystr) (user : KhojUser)
    (send_status_func : option (pystr → list pyval))
    (query_images : option (list pystr)) (agent : option Agent)
    (sandbox_url : pystr) (tracer : pyval) (w : World) (reply : pystr)
    (d : gmap pystr pyval) :
  model w (code_generation_request (utc_today w) query conversation_history context
             location_data user query_images agent tracer) = Ok reply →
  json_loads (clean_json reply) = Ok (PyDict d) →
  d !! py "code" = None ∨ (∃ s, d !! py "code" = Some (PyStr s) ∧ blank s) →
  outcome_of (run_code query conversation_history context location_data user
                send_status_func query_images agent sandbox_url tracer w)
  = Failed (ValueError (py "Failed to generate code for " ++ query
                        ++ py " with error: ")).
Proof.
  intros Hmodel Hjson Hcode.
  assert ((generate_python_code query conversation_history context location_data
             user query_images agent tracer w).1 = Raise (ValueError [])) as Hgen.
  { rewrite generate_python_code_run. simpl. rewrite Hmodel. simpl.
    unfold parse_reply. rewrite Hjson. simpl.
    destruct Hcode as [->|(s & -> & Hs)]; simpl; [done |].
    apply strip_blank in Hs. by rewrite Hs. }
  destruct (run_code_generation_failure query conversation_history context
              location_data user send_status_func query_images agent sandbox_url
              tracer w (ValueError []) Hgen) as [w' [Hrun _]].
  unfold outcome_of. rewrite Hrun. simpl. do 2 f_equal.
Qed.

(** ** Resolution and execution, when they go wrong *)

(** The parsed reply of a run whose reply is accepted. *)
Lemma asked_and_parsed (reply : pystr) (d : gmap pystr pyval) (s : pystr)
    (answer : result pystr) :
  answer = Ok reply →
  json_loads (clean_json reply) = Ok (PyDict d) →
  d !! py "code" = Some (PyStr s) →
  strip s ≠ [] →
  (reply ← answer; parse_reply reply)
  = Ok (strip s, from_option id (PyList []) (d !! py "input_files"),
        from_option id (PyList []) (d !! py "input_links")).
Proof.
  intros -> Hjson Hcode Hs. simpl. by apply parse_reply_accepts.
Qed.

(** When the reply is accepted but its [input_files] is [null], a boolean
    or a number, the run ends with the [TypeError] of the [for] loop, not
    wrapped into a failure message: no file has been looked up and nothing
    has been posted. *)
Theorem input_files_not_iterable (query : pystr) (conversation_history : pyval)
    (context : pystr) (location_data : option pystr) (user : KhojUser)
    (send_status_func : option (pystr → list pyval))
    (query_images : option (list pystr)) (agent : option Agent)
    (sandbox_url : pystr) (tracer : pyval) (w : World) (reply : pystr)
    (d : gmap pystr pyval) (s : pystr) (v : pyval) :
  model w (code_generation_request (utc_today w) query conversation_history context
             location_data user query_images agent tracer) = Ok reply →
  json_loads (clean_json reply) = Ok (PyDict d) →
  d !! py "code" = Some (PyStr s) →
  strip s ≠ [] →
  d !! py "input_files" = Some v →
  v = PyNone ∨ (∃ b, v = PyBool b) ∨ (∃ z, v = PyInt z) ∨ (∃ bits, v = PyFloat bits) →
  let run := run_code query conversation_history context location_data user
               send_status_func query_images agent sandbox_url tracer w in
  outcome_of run
  = Failed (TypeError (py "'" ++ type_name v ++ py "' object is not iterable"))
  ∧ db_lookups run.2 = db_lookups w
  ∧ http_posts run.2 = http_posts w.
Proof.
  intros Hmodel Hjson Hcode Hs Hfiles Hv run.
  pose proof (asked_and_parsed reply d s _ Hmodel Hjson Hcode Hs) as Hparsed.
  rewrite Hfiles in Hparsed. simpl in Hparsed.
  assert (py_iter v
          = Raise (TypeError (py "'" ++ type_name v ++ py "' object is not iterable")))
    as Hiter by (by destruct Hv as [->|[[b ->]|[[z ->]|[bits ->]]]]).
  destruct (run_code_trace query conversation_history context location_data user
              send_status_func query_images agent sandbox_url tracer w)
    as [(cause & Hp & Hrun)
       |(code & input_files & input_links & Hp
         & [(e & Hi & Hrun)|(names & Hi & _)])];
    rewrite Hparsed in Hp; [done | |]; injection Hp as <- <- <-;
    rewrite Hiter in Hi; [| done]. injection Hi as <-.
  fold run in Hrun. unfold outcome_of. rewrite Hrun. cbn [fst snd].
  split; [done |].
  by destruct (asked_world send_status_func (generating_status query)
                 (code_generation_request (utc_today w) query conversation_history
                    context location_data user query_images agent tracer) w)
    as (_ & _ & -> & -> & _).
Qed.

(** When a stored file that matches a requested name holds a lone
    surrogate, the run ends with the [UnicodeEncodeError] of the encoding,
    not wrapped into a failure message: every requested name has been
    looked up by then, and nothing has been posted. *)
Theorem unencodable_content_fails_run (query : pystr) (conversation_history : pyval)
    (context : pystr) (location_data : option pystr) (user : KhojUser)
    (send_status_func : option (pystr → list pyval))
    (query_images : option (list pystr)) (agent : option Agent)
    (sandbox_url : pystr) (tracer : pyval) (w : World) (reply : pystr)
    (d : gmap pystr pyval) (s : pystr) (names : list pyval) (name : pyval)
    (f : FileObject) :
  model w (code_generation_request (utc_today w) query conversation_history context
             location_data user query_images agent tracer) = Ok reply →
  json_loads (clean_json reply) = Ok (PyDict d) →
  d !! py "code" = Some (PyStr s) →
  strip s ≠ [] →
  d !! py "input_files" = Some (PyList names) →
  name ∈ names →
  f ∈ stored_entries user name (file_store w) →
  ¬ encodable (raw_text f) →
  let run := run_code query conversation_history context location_data user
               send_status_func query_images agent sandbox_url tracer w in
  (∃ f' start stop,
     f' ∈ file_store w
     ∧ outcome_of run
       = Failed (UnicodeEncodeError (py "utf-8") (raw_text f') start stop
                   (py "surrogates not allowed")))
  ∧ db_lookups run.2 = db_lookups w ++ ((λ name, (user, name)) <$> names)
  ∧ http_posts run.2 = http_posts w.
Proof.
  intros Hmodel Hjson Hcode Hs Hfiles Hname Hf Hbad run.
  pose proof (asked_and_parsed reply d s _ Hmodel Hjson Hcode Hs) as Hparsed.
  rewrite Hfiles in Hparsed. simpl in Hparsed.
  destruct (map_result_surrogate
              (names ≫= λ name, stored_entries user name (file_store w)))
    as [e He].
  { rewrite Forall_forall. intros Hall. apply Hbad, (Hall f).
    apply list_elem_of_bind. by exists name. }
  destruct (run_code_trace query conversation_history context location_data user
              send_status_func query_images agent sandbox_url tracer w)
    as [(cause & Hp & Hrun)
       |(code & input_files & input_links & Hp
         & [(e' & Hi & Hrun)
           |(names' & Hi & [(e' & Hm & Hrun)|(input_data & Hm & _)])])];
    rewrite Hparsed in Hp; [done | | |]; injection Hp as <- <- <-;
    simpl in Hi; [done | |]; injection Hi as <-;
    rewrite He in Hm; [| done]. injection Hm as <-.
  fold run in Hrun. unfold outcome_of. rewrite Hrun. cbn [fst snd].
  destruct (map_result_raises _ _ He) as (f' & start & stop & Hf' & _ & ->).
  split.
  - exists f', start, stop. split; [| done].
    apply list_elem_of_bind in Hf' as (name' & Hf' & _).
    destruct name'; simpl in Hf'; try by apply not_elem_of_nil in Hf'.
    by apply list_elem_of_filter in Hf' as [_ Hf'].
  - by destruct (looked_up_world send_status_func (generating_status query)
                   (code_generation_request (utc_today w) query conversation_history
                      context location_data user query_images agent tracer) user names w)
      as (_ & _ & -> & -> & _).
Qed.

(** The [TypeError] of [result["code"] = ...] on a value that is not a
    dictionary. *)
Lemma py_setitem_not_dict (v : pyval) (key : pystr) (x : pyval) :
  (∀ d, v ≠ PyDict d) →
  py_setitem v key x
  = Raise (TypeError
             match v with
             | PyList _ => py "list indices must be integers or slices, not str"
             | _ => py "'" ++ type_name v ++ py "' object does not support item assignment"
             end).
Proof. intros Hv. destruct v; try done. by destruct (Hv d). Qed.

(** When the sandbox answers status 200 and the body cannot be read as
    JSON, or is JSON but not an object, the run ends Failed with the
    execution error: what reading the body raised, or the [TypeError] of
    the assignment of [code], is wrapped with the query. *)
Theorem unreadable_body_fails_run (query : pystr) (conversation_history : pyval)
    (context : pystr) (location_data : option pystr) (user : KhojUser)
    (send_status_func : option (pystr → list pyval))
    (query_images : option (list pystr)) (agent : option Agent)
    (sandbox_url : pystr) (tracer : pyval) (w w1 w2 : World)
    (code : pystr) (input_files input_links : pyval) (input_data : list pyval)
    (response : HttpResponse) :
  generate_python_code query conversation_history context location_data user
    query_images agent tracer
    (after_status send_status_func (py "**Generate code snippet** for " ++ query) w)
  = (Ok (code, input_files, input_links), w1) →
  prepare_input_data user input_files w1 = (Ok input_data, w2) →
  sandbox (after_status send_status_func (py "**Running code snippet**") w2)
    (sandbox_request code input_data sandbox_url) = Ok response →
  status response = 200%Z →
  let run := run_code query conversation_history context location_data user
               send_status_func query_images agent sandbox_url tracer w in
  (∀ cause,
     json response = Raise cause →
     outcome_of run
     = Failed (ValueError (py "Failed to run code for " ++ query
                           ++ py " with error: " ++ str_exn cause)))
  ∧ (∀ v,
       json response = Ok v → (∀ d, v ≠ PyDict d) →
       outcome_of run
       = Failed (ValueError
                   (py "Failed to run code for " ++ query ++ py " with error: "
                    ++ match v with
                       | PyList _ => py "list indices must be integers or slices, not str"
                       | _ => py "'" ++ type_name v
                              ++ py "' object does not support item assignment"
                       end))).
Proof.
  intros Hgen Hprep Hpost Hstatus run.
  assert (run.1
          = match v ← json response;
                  py_setitem v (py "code") (PyStr (clean_code_python code)) with
            | Ok result =>
                Ok (final_mapping query (PyStr (clean_code_python code))
                      (delete (py "code") result))
            | Raise cause =>
                Raise (ValueError (py "Failed to run code for " ++ query
                                   ++ py " with error: " ++ str_exn cause))
            end) as Hrun.
  { unfold run. rewrite (run_code_stages _ _ _ _ _ _ _ _ _ _ _ _ _ _ _ _ _ Hgen Hprep).
    rewrite execute_sandboxed_python_run, Hpost. simpl.
    rewrite bool_decide_true by done.
    destruct (v ← json response; _) as [result|cause] eqn:Hresult; [| done].
    unfold dict_pop.
    assert (result !! py "code" = Some (PyStr (clean_code_python code))) as ->; [| done].
    apply (sandbox_result_has_code code response).
    by rewrite bool_decide_true. }
  unfold outcome_of. rewrite Hrun. split.
  - intros cause ->. done.
  - intros v -> Hv. simpl. by rewrite (py_setitem_not_dict v _ _ Hv).
Qed.

(** ** What is sent to the sandbox *)

(** The name an artifact carries is the last component of the stored
    name: it holds no slash, and the stored name is that name, or a
    directory part, a slash, and that name.  An artifact has the two
    fields [filename] and [b64_data] and no other. *)
Theorem artifact_filename_is_last_component (f : FileObject) (a : pyval) :
  input_artifact f = Ok a →
  ∃ d name,
    a = PyDict d
    ∧ dom d = {[ py "filename"; py "b64_data" ]}
    ∧ d !! py "filename" = Some (PyStr name)
    ∧ (0x2F ∉ name)
    ∧ (file_name f = name ∨ ∃ dir, file_name f = dir ++ [0x2F] ++ name).
Proof.
  unfold input_artifact.
  destruct (encode_utf8 (raw_text f)) as [bs|e]; simpl; [| done].
  intros [= <-]. eexists _, (basename (file_name f)).
  split; [done |]. split; [rewrite !dom_insert_L, dom_empty_L; set_solver |].
  split; [apply lookup_insert_eq |].
  destruct (basename_spec (file_name f)) as (dir & Hp & Hslash & Hdir).
  split; [done |].
  destruct Hdir as [->|Hlast]; [by left |]. right.
  destruct dir as [|c dir _] using rev_ind; [done |].
  rewrite last_snoc in Hlast. injection Hlast as ->.
  exists dir. rewrite Hp at 1. by rewrite <- app_assoc.
Qed.

Lemma b64_char_in_alphabet (i : N) : is_b64_char (b64_char i) = true.
Proof.
  unfold b64_char, is_b64_char.
  destruct (N.ltb_spec i 26); [| destruct (N.ltb_spec i 52);
    [| destruct (N.ltb_spec i 62); [| destruct (N.eqb_spec i 62)]]];
    rewrite !orb_true_iff, !andb_true_iff, !N.leb_le, !N.eqb_eq; lia.
Qed.

(** ** Resolution, request by request *)

Lemma map_result_app {A B} (f : A → result B) (l1 l2 : list A) :
  map_result f (l1 ++ l2)
  = (ys1 ← map_result f l1; ys2 ← map_result f l2; Ok (ys1 ++ ys2)).
Proof.
  induction l1 as [|x l1 IH]; simpl.
  - by destruct (map_result f l2).
  - destruct (f x) as [y|e]; simpl; [| done]. rewrite IH.
    destruct (map_result f l1) as [ys1|e]; simpl; [| done].
    by destruct (map_result f l2).
Qed.

(** Resolution of a list of names that is two lists one after the other
    gives the artifacts of the first and then those of the second: a name
    asked twice gives its artifacts twice, and the artifacts of a name do
    not depend on the names around it. *)
Theorem resolution_of_concatenation (user : KhojUser) (names1 names2 : list pyval)
    (w : World) (artifacts1 artifacts2 : list pyval) :
  (prepare_input_data user (PyList names1) w).1 = Ok artifacts1 →
  (prepare_input_data user (PyList names2) w).1 = Ok artifacts2 →
  (prepare_input_data user (PyList (names1 ++ names2)) w).1
  = Ok (artifacts1 ++ artifacts2).
Proof.
  rewrite !prepare_input_data_run. simpl. intros H1 H2.
  by rewrite bind_app, map_result_app, H1, H2.
Qed.

(** Resolution looks every requested name up once, in the order
    requested, whether or not the name matches a file and whether or not
    the encoding of the files found raises afterwards; a string in the
    place of the list of names is looked up character by character. *)
Theorem resolution_looks_up_every_name (user : KhojUser) (w : World) :
  (∀ names : list pyval,
     db_lookups (prepare_input_data user (PyList names) w).2
     = db_lookups w ++ ((λ name, (user, name)) <$> names))
  ∧ (∀ s : pystr,
       db_lookups (prepare_input_data user (PyStr s) w).2
       = db_lookups w ++ ((λ c, (user, PyStr [c])) <$> s)).
Proof.
  split.
  - intros names. rewrite prepare_input_data_run. simpl. apply after_lookups_frame.
  - intros s. rewrite prepare_input_data_run. simpl.
    destruct (after_lookups_frame user ((λ c, PyStr [c]) <$> s) w)
      as (_ & _ & _ & _ & _ & _ & ->).
    by rewrite <- list_fmap_compose.
Qed.

(** ** The payload *)

Lemma below_256 (a : N) : a < 256 → a ∈ bytes_below_256.
Proof.
  intros Ha. unfold bytes_below_256. apply list_elem_of_fmap.
  exists (N.to_nat a). split; [by rewrite N2Nat.id |].
  apply elem_of_seq. lia.
Qed.

(** A test that holds of every byte holds of each. *)
Lemma for_every_byte (P : N → bool) (a : N) :
  forallb P bytes_below_256 = true → a < 256 → P a = true.
Proof.
  intros Hall Ha. rewrite forallb_forall in Hall.
  apply Hall, list_elem_of_In, below_256, Ha.
Qed.

(** A test that holds of every pair of bytes holds of each. *)
Lemma for_every_two_bytes (P : N → N → bool) (a b : N) :
  forallb (λ a, forallb (P a) bytes_below_256) bytes_below_256 = true →
  a < 256 → b < 256 → P a b = true.
Proof.
  intros Hall Ha Hb.
  apply (for_every_byte (P a)); [| done].
  by apply (for_every_byte (λ a, forallb (P a) bytes_below_256)).
Qed.

(** The first byte of a group comes back. *)
Lemma b64_first_byte (a b : N) :
  a < 256 → b < 256 →
  N.lor (N.shiftl (b64_index (b64_char (N.shiftr a 2))) 2)
    (N.shiftr (b64_index (b64_char (N.land (N.lor (N.shiftl a 4) (N.shiftr b 4)) 0x3F))) 4)
  = a.
Proof.
  intros Ha Hb. apply N.eqb_eq.
  apply (for_every_two_bytes (λ a b,
    N.lor (N.shiftl (b64_index (b64_char (N.shiftr a 2))) 2)
      (N.shiftr (b64_index (b64_char (N.land (N.lor (N.shiftl a 4) (N.shiftr b 4)) 0x3F))) 4)
    =? a)); [by vm_compute | done..].
Qed.

(** The second byte of a group comes back. *)
Lemma b64_second_byte (a b c : N) :
  a < 256 → b < 256 → c < 256 →
  N.lor (N.land (N.shiftl (b64_index (b64_char
           (N.land (N.lor (N.shiftl a 4) (N.shiftr b 4)) 0x3F))) 4) 0xFF)
    (N.shiftr (b64_index (b64_char
           (N.land (N.lor (N.shiftl b 2) (N.shiftr c 6)) 0x3F))) 2)
  = b.
Proof.
  intros Ha Hb Hc.
  assert (N.land (N.shiftl (b64_index (b64_char
            (N.land (N.lor (N.shiftl a 4) (N.shiftr b 4)) 0x3F))) 4) 0xFF
          = N.land b 0xF0) as ->.
  { apply N.eqb_eq.
    apply (for_every_two_bytes (λ a b,
      N.land (N.shiftl (b64_index (b64_char
        (N.land (N.lor (N.shiftl a 4) (N.shiftr b 4)) 0x3F))) 4) 0xFF
      =? N.land b 0xF0)); [by vm_compute | done..]. }
  apply N.eqb_eq.
  apply (for_every_two_bytes (λ b c,
    N.lor (N.land b 0xF0)
      (N.shiftr (b64_index (b64_char
         (N.land (N.lor (N.shiftl b 2) (N.shiftr c 6)) 0x3F))) 2)
    =? b)); [by vm_compute | done..].
Qed.

(** The third byte of a group comes back. *)
Lemma b64_third_byte (b c : N) :
  b < 256 → c < 256 →
  N.lor (N.land (N.shiftl (b64_index (b64_char
           (N.land (N.lor (N.shiftl b 2) (N.shiftr c 6)) 0x3F))) 6) 0xFF)
    (b64_index (b64_char (N.land c 0x3F)))
  = c.
Proof.
  intros Hb Hc. apply N.eqb_eq.
  apply (for_every_two_bytes (λ b c,
    N.lor (N.land (N.shiftl (b64_index (b64_char
             (N.land (N.lor (N.shiftl b 2) (N.shiftr c 6)) 0x3F))) 6) 0xFF)
      (b64_index (b64_char (N.land c 0x3F)))
    =? c)); [by vm_compute | done..].
Qed.

(** No character of the alphabet is the padding character. *)
Lemma b64_char_not_padding (i : N) : (b64_char i =? 0x3D) = false.
Proof.
  pose proof (b64_char_in_alphabet i) as H. apply N.eqb_neq. intros E.
  rewrite E in H. by vm_compute in H.
Qed.

(** The byte of a last group of one comes back. *)
Lemma b64_lone_byte (a : N) :
  a < 256 →
  N.lor (N.shiftl (b64_index (b64_char (N.shiftr a 2))) 2)
    (N.shiftr (b64_index (b64_char (N.land (N.shiftl a 4) 0x3F))) 4)
  = a.
Proof.
  intros Ha. apply N.eqb_eq.
  apply (for_every_byte (λ a,
    N.lor (N.shiftl (b64_index (b64_char (N.shiftr a 2))) 2)
      (N.shiftr (b64_index (b64_char (N.land (N.shiftl a 4) 0x3F))) 4)
    =? a)); [by vm_compute | done].
Qed.

(** The second byte of a last group of two comes back. *)
Lemma b64_last_byte_of_two (a b : N) :
  a < 256 → b < 256 →
  N.lor (N.land (N.shiftl (b64_index (b64_char
           (N.land (N.lor (N.shiftl a 4) (N.shiftr b 4)) 0x3F))) 4) 0xFF)
    (N.shiftr (b64_index (b64_char (N.land (N.shiftl b 2) 0x3F))) 2)
  = b.
Proof.
  intros Ha Hb. apply N.eqb_eq.
  apply (for_every_two_bytes (λ a b,
    N.lor (N.land (N.shiftl (b64_index (b64_char
             (N.land (N.lor (N.shiftl a 4) (N.shiftr b 4)) 0x3F))) 4) 0xFF)
      (N.shiftr (b64_index (b64_char (N.land (N.shiftl b 2) 0x3F))) 2)
    =? b)); [by vm_compute | done..].
Qed.

(** Decoding what [b64encode] made of bytes gives the bytes back. *)
Lemma b64decode_b64encode (bs : list N) :
  Forall (λ b, b < 256) bs → b64decode (b64encode bs) = bs.
Proof.
  induction bs as [|a|a b|a b c l IH] using list_ind3; intros Hbs.
  - done.
  - inversion_clear Hbs as [|? ? Ha _]. simpl. by rewrite b64_lone_byte.
  - inversion_clear Hbs as [|? ? Ha Hbs']. inversion_clear Hbs' as [|? ? Hb _].
    cbn [b64encode b64decode]. rewrite b64_char_not_padding. simpl.
    by rewrite b64_first_byte, b64_last_byte_of_two.
  - inversion_clear Hbs as [|? ? Ha Hbs']. inversion_clear Hbs' as [|? ? Hb Hbs].
    inversion_clear Hbs as [|? ? Hc Hl].
    cbn [b64encode b64decode]. rewrite !b64_char_not_padding.
    rewrite b64_first_byte, (b64_second_byte a b c), b64_third_byte, (IH Hl) by done.
    done.
Qed.

(** What [b64encode] makes is base64 text. *)
Lemma b64encode_text (bs : list N) : is_b64_text (b64encode bs).
Proof.
  unfold is_b64_text.
  induction bs as [|a|a b|a b c l IH] using list_ind3; simpl;
    repeat (constructor; [first [left; apply b64_char_in_alphabet | by right] |]);
    first [done | constructor].
Qed.

Lemma lor_below_256 (a b : N) : a < 256 → b < 256 → N.lor a b < 256.
Proof.
  intros Ha Hb.
  destruct (N.eq_dec (N.lor a b) 0) as [->|Hne]; [lia |].
  change 256 with (2 ^ 8). apply N.log2_lt_pow2; [lia |].
  rewrite N.log2_lor.
  destruct (N.eq_dec a 0) as [->|Ha0]; destruct (N.eq_dec b 0) as [->|Hb0];
    try (change (N.log2 0) with 0);
    try (assert (N.log2 a < 8) by (apply N.log2_lt_pow2; [lia | done]));
    try (assert (N.log2 b < 8) by (apply N.log2_lt_pow2; [lia | done]));
    lia.
Qed.

Lemma low_six_bits (a : N) : N.land a 0x3F < 64.
Proof.
  change 0x3F with (N.ones 6). rewrite N.land_ones. by apply N.mod_lt.
Qed.

Lemma continuation_byte (a : N) : N.lor 0x80 (N.land a 0x3F) < 256.
Proof. apply lor_below_256; [lia |]. pose proof (low_six_bits a). lia. Qed.

Lemma lead_byte (tag c n bound : N) :
  tag < 256 → c < bound * 2 ^ n → bound ≤ 256 → N.lor tag (N.shiftr c n) < 256.
Proof.
  intros Htag Hc Hbound. apply lor_below_256; [done |].
  rewrite N.shiftr_div_pow2.
  assert (c / 2 ^ n < bound); [| lia].
  apply N.Div0.div_lt_upper_bound. lia.
Qed.

(** The UTF-8 bytes of a code point are bytes. *)
Lemma utf8_char_bytes (c : N) : c < 0x110000 → Forall (λ b, b < 256) (utf8_char c).
Proof.
  intros Hc. unfold utf8_char.
  destruct (N.ltb_spec c 0x80); [repeat constructor; lia |].
  destruct (N.ltb_spec c 0x800).
  { repeat constructor; [| apply continuation_byte].
    apply (lead_byte _ _ _ 32); [done | simpl; lia | lia]. }
  destruct (N.ltb_spec c 0x10000).
  { repeat constructor; [| apply continuation_byte..].
    apply (lead_byte _ _ _ 16); [done | simpl; lia | lia]. }
  repeat constructor; [| apply continuation_byte..].
  apply (lead_byte _ _ _ 8); [done | simpl; lia | lia].
Qed.

Lemma utf8_bytes_bytes (s : pystr) : code_points s → Forall (λ b, b < 256) (utf8_bytes s).
Proof.
  induction 1 as [|c s Hc _ IH]; [constructor |].
  unfold utf8_bytes. rewrite bind_cons. apply Forall_app. split; [| done].
  by apply utf8_char_bytes.
Qed.

(** The payload of an artifact is base64 text, four characters for every
    three bytes of the UTF-8 encoding of the content, the last group
    padded; and it is lossless: decoded, it gives the bytes of the
    encoding back. *)
Theorem artifact_payload_decodes (f : FileObject) (a : pyval) :
  code_points (raw_text f) →
  input_artifact f = Ok a →
  ∃ d payload,
    a = PyDict d
    ∧ d !! py "b64_data" = Some (PyStr payload)
    ∧ is_b64_text payload
    ∧ List.length payload = (4 * ((List.length (utf8_bytes (raw_text f)) + 2) / 3))%nat
    ∧ b64decode payload = utf8_bytes (raw_text f)
    ∧ encode_utf8 (raw_text f) = Ok (utf8_bytes (raw_text f)).
Proof.
  intros Hpoints. unfold input_artifact.
  destruct (decide (encodable (raw_text f))) as [Henc|Henc].
  - rewrite (encode_utf8_encodable _ Henc). simpl. intros [= <-].
    eexists _, _. split; [done |].
    split; [rewrite lookup_insert_ne by py_neq; apply lookup_insert_eq |].
    split; [apply b64encode_text |]. split; [apply b64encode_length |].
    split; [| done]. by apply b64decode_b64encode, utf8_bytes_bytes.
  - destruct (encode_utf8_from_surrogate (raw_text f) (raw_text f) O Henc) as [e He].
    unfold encode_utf8. by rewrite He.
Qed.

End Traces.

(** * The further properties on concrete runs *)



(** The code of an accepted reply comes back trimmed and not empty. *)
Lemma generated_code_is_trimmed_witness :
  let w := fresh_world [] (Ok reply_with_files) sandbox_says_2 in
  (generate_python_code (C := reference) (py "read my csv") (PyDict ∅) [] None alice
     None None (PyDict ∅) w).1
  = Ok (py "import csv",
        PyList [PyStr (py "notes/data.csv"); PyStr (py "missing.txt")], PyList [])
  ∧ py "import csv" ≠ [] ∧ strip (py "import csv") = py "import csv".
Proof.
  intros w.
  assert ((generate_python_code (C := reference) (py "read my csv") (PyDict ∅) [] None
             alice None None (PyDict ∅) w).1
          = Ok (py "import csv",
                PyList [PyStr (py "notes/data.csv"); PyStr (py "missing.txt")],
                PyList [])) as Hgen by (vm_compute; reflexivity).
  split; [exact Hgen |].
  destruct (generated_code_is_trimmed (C := reference) (py "read my csv") (PyDict ∅) []
              None alice None None (PyDict ∅) w _ _ _ Hgen) as (Hne & Hstrip & _).
  by split.
Defined.

(** A reply that is a JSON array: the [AttributeError] of [get], wrapped. *)
Lemma reply_not_object_raises_in_get_witness :
  let w := fresh_world [] (Ok reply_array) sandbox_says_2 in
  json_loads (Collaborators := reference) (clean_json (Collaborators := reference) reply_array)
  = Ok (PyList [PyInt 1; PyInt 2])
  ∧ outcome_of (run_query (H := reference) add_two_numbers alice w)
    = Failed (ValueError (py "Failed to generate code for add two numbers with error: 'list' object has no attribute 'get'")).
Proof.
  intros w.
  assert (Json.loads (strip reply_array) = Ok (PyList [PyInt 1; PyInt 2])) as Hjson
    by (vm_compute; reflexivity).
  split; [exact Hjson |].
  destruct (reply_not_object_raises_in_get (C := reference) add_two_numbers (PyDict ∅) []
              None alice None None None localhost (PyDict ∅) w reply_array
              (PyList [PyInt 1; PyInt 2]) eq_refl Hjson ltac:(done)) as [_ Hrun].
  instance_of Hrun.
Defined.

(** A [code] of three spaces: the message ends after "with error: ". *)
Lemma missing_code_error_names_no_cause_witness :
  let w := fresh_world [] (Ok reply_code_spaces) sandbox_says_2 in
  blank (py "   ")
  ∧ outcome_of (run_query (H := reference) add_two_numbers alice w)
    = Failed (ValueError (py "Failed to generate code for add two numbers with error: ")).
Proof.
  intros w.
  assert (blank (py "   ")) as Hblank by (by repeat constructor).
  assert (Json.loads (strip reply_code_spaces)
          = Ok (PyDict (<[py "code" := PyStr (py "   ")]> ∅))) as Hjson
    by (vm_compute; reflexivity).
  split; [exact Hblank |].
  instance_of (missing_code_error_names_no_cause (C := reference) add_two_numbers
                 (PyDict ∅) [] None alice None None None localhost (PyDict ∅) w
                 reply_code_spaces _ eq_refl Hjson
                 (or_intror (ex_intro _ (py "   ") (conj eq_refl Hblank)))).
Defined.

(** [input_files] is [null]: the [TypeError] of the loop, as it is. *)
Lemma input_files_not_iterable_witness :
  let w := fresh_world some_files (Ok reply_null_files) sandbox_says_2 in
  let run := run_query (H := reference) add_two_numbers alice w in
  json_loads (Collaborators := reference)
    (clean_json (Collaborators := reference) reply_null_files)
  = Ok (PyDict (<[py "code" := PyStr (py "print(1+1)")]>
                 (<[py "input_files" := PyNone]> ∅)))
  ∧ outcome_of run = Failed (TypeError (py "'NoneType' object is not iterable"))
  ∧ db_lookups run.2 = []
  ∧ http_posts run.2 = [].
Proof.
  intros w run.
  assert (Json.loads (strip reply_null_files)
          = Ok (PyDict (<[py "code" := PyStr (py "print(1+1)")]>
                         (<[py "input_files" := PyNone]> ∅)))) as Hjson
    by (vm_compute; reflexivity).
  split; [exact Hjson |].
  instance_of (input_files_not_iterable (C := reference) add_two_numbers (PyDict ∅) []
                 None alice None None None localhost (PyDict ∅) w reply_null_files
                 _ (py "print(1+1)") PyNone eq_refl Hjson eq_refl
                 ltac:(by vm_compute) eq_refl (or_introl eq_refl)).
Defined.

(** A file asked for holds a lone surrogate: the [UnicodeEncodeError],
    as it is, after both names have been looked up. *)
Lemma unencodable_content_fails_run_witness :
  let w := fresh_world files_with_bad (Ok reply_bad_file) sandbox_says_2 in
  let run := run_query (H := reference) add_two_numbers alice w in
  ¬ encodable (raw_text bad_file)
  ∧ outcome_of run
    = Failed (UnicodeEncodeError (py "utf-8") (py "a" ++ [0xD800]) 1 2
                (py "surrogates not allowed"))
  ∧ db_lookups run.2
    = [(alice, PyStr (py "notes/data.csv")); (alice, PyStr (py "bad.txt"))]
  ∧ http_posts run.2 = [].
Proof.
  intros w run.
  assert (¬ encodable (raw_text bad_file)) as Hbad.
  { intros H. apply Forall_cons in H as [_ H]. by apply Forall_cons in H as [H _]. }
  assert (Json.loads (strip reply_bad_file)
          = Ok (PyDict (<[py "code" := PyStr (py "print(1+1)")]>
                         (<[py "input_files" :=
                              PyList [PyStr (py "notes/data.csv"); PyStr (py "bad.txt")]]>
                            ∅)))) as Hjson
    by (vm_compute; reflexivity).
  split; [exact Hbad |].
  destruct (unencodable_content_fails_run (C := reference) add_two_numbers (PyDict ∅) []
              None alice None None None localhost (PyDict ∅) w reply_bad_file
              _ (py "print(1+1)") [PyStr (py "notes/data.csv"); PyStr (py "bad.txt")]
              (PyStr (py "bad.txt")) bad_file eq_refl Hjson eq_refl
              ltac:(by vm_compute) eq_refl
              ltac:(apply list_elem_of_further, list_elem_of_here)
              ltac:(vm_compute; repeat constructor) Hbad)
    as (_ & Hdb & Hhttp).
  split; [by vm_compute |]. split; [instance_of Hdb | instance_of Hhttp].
Defined.

(** The sandbox answers status 200 with a JSON array: the [TypeError] of
    the assignment, wrapped into the execution error. *)
Lemma unreadable_body_fails_run_witness :
  let generated w :=
    generate_python_code (C := reference) add_two_numbers (PyDict ∅) [] None alice
      None None (PyDict ∅) w in
  let w := fresh_world [] (Ok reply_print) sandbox_says_list in
  (generated w).1 = Ok (py "print(1+1)", PyList [], PyList [])
  ∧ outcome_of (run_query (H := reference) add_two_numbers alice w)
    = Failed (ValueError (py "Failed to run code for add two numbers with error: list indices must be integers or slices, not str")).
Proof.
  intros generated w.
  assert (generated w = (Ok (py "print(1+1)", PyList [], PyList []), (generated w).2))
    as Hgen by (vm_compute; reflexivity).
  split; [by rewrite Hgen |].
  destruct (unreadable_body_fails_run (C := reference) add_two_numbers (PyDict ∅)
              [] None alice None None None localhost (PyDict ∅) w
              (generated w).2 (generated w).2 (py "print(1+1)") (PyList [])
              (PyList []) [] {| status := 200%Z; json := Ok (PyList [PyInt 2]) |}
              Hgen eq_refl eq_refl eq_refl) as [_ Hlist].
  instance_of (Hlist (PyList [PyInt 2]) eq_refl ltac:(done)).
Defined.

(** The artifact of a file stored as "notes/data.csv" is named
    "data.csv". *)
Lemma artifact_filename_is_last_component_witness :
  let f := {| file_owner := 1; file_name := py "notes/data.csv"; raw_text := py "a,b" |} in
  let a := PyDict (<[py "filename" := PyStr (py "data.csv")]>
                    (<[py "b64_data" := PyStr (py "YSxi")]> ∅)) in
  input_artifact f = Ok a
  ∧ ∃ d name,
      a = PyDict d
      ∧ dom d = {[ py "filename"; py "b64_data" ]}
      ∧ d !! py "filename" = Some (PyStr name)
      ∧ (0x2F ∉ name)
      ∧ (file_name f = name ∨ ∃ dir, file_name f = dir ++ [0x2F] ++ name).
Proof.
  intros f a.
  assert (input_artifact f = Ok a) as Hf by (vm_compute; reflexivity).
  split; [exact Hf |].
  exact (artifact_filename_is_last_component f a Hf).
Defined.

(** The payload "YSxi" of the content "a,b" decodes to its three bytes. *)
Lemma artifact_payload_decodes_witness :
  let f := {| file_owner := 1; file_name := py "notes/data.csv"; raw_text := py "a,b" |} in
  let a := PyDict (<[py "filename" := PyStr (py "data.csv")]>
                    (<[py "b64_data" := PyStr (py "YSxi")]> ∅)) in
  code_points (raw_text f)
  ∧ input_artifact f = Ok a
  ∧ b64decode (py "YSxi") = [0x61; 0x2C; 0x62].
Proof.
  intros f a.
  assert (code_points (raw_text f)) as Hpoints.
  { change (raw_text f) with [0x61; 0x2C; 0x62]. unfold code_points.
    repeat (apply Forall_cons; split; [lia |]). constructor. }
  assert (input_artifact f = Ok a) as Hf by (vm_compute; reflexivity).
  split; [exact Hpoints |]. split; [exact Hf |].
  destruct (artifact_payload_decodes f a Hpoints Hf)
    as (d & payload & Ha & Hpayload & _ & _ & Hdecode & _).
  injection Ha as <-.
  rewrite lookup_insert_ne, lookup_insert_eq in Hpayload by py_neq.
  injection Hpayload as <-. exact Hdecode.
Defined.

(** The same name asked twice: its two files, twice. *)
Lemma resolution_of_concatenation_witness :
  let w := fresh_world some_files (Ok reply_with_files) sandbox_says_2 in
  let names := [PyStr (py "notes/data.csv")] in
  let found :=
    [PyDict (<[py "filename" := PyStr (py "data.csv")]>
              (<[py "b64_data" := PyStr (py "YSxi")]> ∅));
     PyDict (<[py "filename" := PyStr (py "data.csv")]>
              (<[py "b64_data" := PyStr (py "MSwy")]> ∅))] in
  (prepare_input_data alice (PyList names) w).1 = Ok found
  ∧ (prepare_input_data alice (PyList (names ++ names)) w).1 = Ok (found ++ found).
Proof.
  intros w names found.
  assert ((prepare_input_data alice (PyList names) w).1 = Ok found) as Hfound
    by (vm_compute; reflexivity).
  split; [exact Hfound |].
  exact (resolution_of_concatenation alice names names w found found Hfound Hfound).
Defined.
